(** * DOCX Layout Refitter: a shallow embedding of [app.py] and [processor.py]

    The development follows the two source files.

    - [Py] holds what the program takes from the Python language and its
      standard library: exceptions, byte strings, [str.lower],
      [str.endswith], [pathlib.Path(...).name], floats, and the values a
      YAML configuration is loaded into.
    - [Docx] is the object model of the document library as far as the
      program touches it (sections, paragraphs, runs, header and footer
      parts), together with the interface of the library calls whose bodies
      live outside the repository (loading and saving a package, the
      composer, [re.sub]).
    - [Processor] embeds [compose_into_template], [apply_find_replace] and
      [apply_page_setup] of [processor.py].
    - [App] embeds [iter_input_docs], [process_one] and the batch loop of
      [app.py]; the five functions [process_one] calls are members of the
      class [Steps], so that what is proved about the pipeline holds
      whatever they do.
    - [Spec] holds the notions the specification uses to talk about the
      program, [Sample] a small instance on which the model runs.

    Definitions come first, the properties of the specification follow. *)

From Stdlib Require Import ZArith Ascii SpecFloat.
From stdpp Require Import base strings list gmap pretty.

#[local] Set Warnings "-register-all".

(* ===================================================================== *)
(** * Python prelude *)
(* ===================================================================== *)

Module Py.

(** An exception that [except Exception] catches; it carries [str(e)].
    [BaseException]s that are not [Exception]s (keyboard interrupt,
    interpreter exit) are outside the model. *)
Inductive exn : Type := Exception (msg : string).

Definition str_of_exn (e : exn) : string :=
  match e with Exception msg => msg end.

(** The outcome of a call: a value, or a raised exception. *)
Inductive result (A : Type) : Type :=
  | Ok (a : A)
  | Raise (e : exn).
Arguments Ok {A} a.
Arguments Raise {A} e.

Definition is_ok {A} (r : result A) : bool :=
  match r with Ok _ => true | Raise _ => false end.

#[global] Instance result_ret : MRet result := fun _ a => Ok a.
#[global] Instance result_bind : MBind result := fun _ _ f r =>
  match r with
  | Ok a => f a
  | Raise e => Raise e
  end.

#[global] Instance result_fmap : FMap result := fun _ _ f r =>
  match r with
  | Ok a => Ok (f a)
  | Raise e => Raise e
  end.

(** [bytes] objects. *)
Definition bytes : Type := list Byte.byte.

#[global] Instance byte_eq_dec : EqDecision Byte.byte := Byte.byte_eq_dec.
#[global] Instance bytes_eq_dec : EqDecision bytes := list_eq_dec.

(** A [str] is a Rocq [string]: the UTF-8 bytes of the text, so
    [str.encode("utf-8")] is the list of its bytes. *)
Definition encode_utf8 (s : string) : bytes := String.list_byte_of_string s.

Definition chars (s : string) : list ascii := String.list_ascii_of_string s.
Definition of_chars (l : list ascii) : string := String.string_of_list_ascii l.

(** [str.lower] on the ASCII letters. Python also folds letters outside
    ASCII; none of them folds to a character of the three strings this
    program compares against ([.docx], [.zip], [landscape]). *)
Definition lower_ascii (c : ascii) : ascii :=
  let n := nat_of_ascii c in
  if (65 <=? n)%nat && (n <=? 90)%nat then ascii_of_nat (n + 32) else c.

Definition lower (s : string) : string := of_chars (lower_ascii <$> chars s).

(** [s.endswith(suf)] *)
Definition endswith (s suf : string) : bool :=
  bool_decide (chars suf `suffix_of` chars s).

(** [s.split("/")] on the characters of [s]: never empty, one more piece
    than there are separators. *)
Fixpoint split_slash (l : list ascii) : list (list ascii) :=
  match l with
  | [] => [[]]
  | c :: l' =>
      if Ascii.eqb c "/" then [] :: split_slash l'
      else match split_slash l' with
           | p :: ps => (c :: p) :: ps
           | [] => [[c]]
           end
  end.

(** The components pathlib keeps: [x for x in rel.split(sep) if x and x != '.'] *)
Definition is_part (x : list ascii) : bool :=
  negb (bool_decide (x = [])) && negb (bool_decide (x = ["."%char])).

Definition path_parts (s : string) : list (list ascii) :=
  List.filter is_part (split_slash (chars s)).

(** [pathlib.Path(s).name] (POSIX flavour): the last component, or the
    empty string when there is none. *)
Definition Path_name (s : string) : string :=
  match last (path_parts s) with
  | Some x => of_chars x
  | None => ""
  end.

(** ** Floats

    A [float] is an IEEE 754 binary64 number.  [SpecFloat] of the Standard
    Library has these numbers and their arithmetic, which rounds to the
    nearest float, ties to even. *)
Definition float : Type := spec_float.

(** [float(z)] for an integer [z]; an integer beyond the largest float
    comes out as an infinity here, which no conversion to an integer
    accepts (Python raises [OverflowError] at once). *)
Definition float_of_int (z : Z) : float := binary_normalize 53 1024 z 0 false.

(** [x * y] and [x / y] *)
Definition float_mul (x y : float) : float := SFmul 53 1024 x y.
Definition float_div (x y : float) : float := SFdiv 53 1024 x y.

(** [int(x)]: the integer part, towards zero. *)
Definition int_of_float (x : float) : result Z :=
  match x with
  | S754_zero _ => Ok 0%Z
  | S754_finite s m e => Ok (cond_Zopp s (Z.shiftl (Zpos m) e))
  | S754_infinity _ => Raise (Exception "cannot convert float infinity to integer")
  | S754_nan => Raise (Exception "cannot convert float NaN to integer")
  end.

(** [round(x)]: the nearest integer, the even one of two that are equally
    near. *)
Definition round_float (x : float) : result Z :=
  match x with
  | S754_zero _ => Ok 0%Z
  | S754_finite s m e =>
      if (0 <=? e)%Z then Ok (cond_Zopp s (Z.shiftl (Zpos m) e))
      else
        let q := Z.shiftl (Zpos m) e in
        let r := (Zpos m - Z.shiftl q (- e))%Z in
        let half := Z.shiftl 1 (- e - 1) in
        Ok (cond_Zopp s
              (if (half <? r)%Z || ((r =? half)%Z && Z.odd q)
               then (q + 1)%Z else q))
  | S754_infinity _ => Raise (Exception "cannot convert float infinity to integer")
  | S754_nan => Raise (Exception "cannot convert float NaN to integer")
  end.

(** ** Values of a loaded YAML configuration

    [yaml.safe_load] builds [None], booleans, integers, floats, strings,
    lists and dictionaries.  Every dictionary lookup of the program uses a
    string key, so a dictionary is a finite map on strings (a key that is
    not a string can never be hit by those lookups). *)
Inductive value : Type :=
  | VNone
  | VBool (b : bool)
  | VInt (z : Z)
  | VFloat (x : float)
  | VStr (s : string)
  | VList (l : list value)
  | VDict (d : gmap string value).

(** [v] if [isinstance(v, dict)] (if [isinstance(v, list)]).  For a
    dictionary [cfg], the test [k in cfg and isinstance(cfg[k], dict)]
    holds exactly when [cfg !! k ≫= as_dict] is some dictionary. *)
Definition as_dict (v : value) : option (gmap string value) :=
  match v with VDict d => Some d | _ => None end.
Definition as_list (v : value) : option (list value) :=
  match v with VList l => Some l | _ => None end.

(** Truth value of an object, as tested by [if v:]. *)
Definition truthy (v : value) : bool :=
  match v with
  | VNone => false
  | VBool b => b
  | VInt z => negb (Z.eqb z 0)
  | VFloat x => match x with S754_zero _ => false | _ => true end
  | VStr s => negb (bool_decide (s = ""))
  | VList l => negb (bool_decide (l = []))
  | VDict d => negb (bool_decide (d = ∅))
  end.

(** [d.get(k)] and [d.get(k, default)] *)
Definition dict_get (d : gmap string value) (k : string) : value :=
  default VNone (d !! k).
Definition dict_get_default (d : gmap string value) (k : string) (dflt : value) : value :=
  default dflt (d !! k).

End Py.

Import Py.

(* ===================================================================== *)
(** * The document object model *)
(* ===================================================================== *)

Module Docx.

(** [docx.enum.section.WD_ORIENT] *)
Inductive WD_ORIENT : Type := PORTRAIT | LANDSCAPE.

(** A run: its text and its character formatting (font, bold, colour,
    ... kept as one opaque description; [None] for a run without any). *)
Record Run : Type := mkRun {
  run_text : string;
  run_format : option string
}.

(** What a paragraph holds in document order: runs, and hyperlinks, whose
    visible text [Paragraph.text] includes but whose runs [Paragraph.runs]
    does not list. *)
Inductive Inline : Type :=
  | IRun (r : Run)
  | IHyperlink (text : string).

Record Paragraph : Type := mkParagraph {
  style : string;
  content : list Inline
}.

(** [p.runs] *)
Definition runs_of (c : list Inline) : list Run :=
  omap (fun i => match i with IRun r => Some r | IHyperlink _ => None end) c.
Definition runs (p : Paragraph) : list Run := runs_of (content p).

Definition inline_text (i : Inline) : string :=
  match i with IRun r => run_text r | IHyperlink t => t end.

(** ["".join(...)] *)
Definition join (l : list string) : string := foldr String.append "" l.

(** [p.text] *)
Definition text (p : Paragraph) : string := join (inline_text <$> content p).

(** [p.runs[0]._r.getparent().remove(p.runs[0]._r)]: the first run leaves
    the paragraph. *)
Fixpoint remove_first_run (c : list Inline) : list Inline :=
  match c with
  | [] => []
  | IRun _ :: c' => c'
  | i :: c' => i :: remove_first_run c'
  end.

(** [p.add_run(text)]: a new run, without formatting, after everything
    else in the paragraph. *)
Definition add_run (p : Paragraph) (t : string) : Paragraph :=
  mkParagraph (style p) (content p ++ [IRun (mkRun t None)]).

(** A section: page geometry in the library's length unit ([None] when the
    attribute is absent), and which header and footer part it uses
    ([None]: linked to the previous section). *)
Record Section : Type := mkSection {
  orientation : WD_ORIENT;
  page_width : option Z;
  page_height : option Z;
  top_margin : option Z;
  bottom_margin : option Z;
  left_margin : option Z;
  right_margin : option Z;
  header_part : option nat;
  footer_part : option nat
}.

(** A loaded document: its sections, the paragraphs of its body, and the
    header and footer parts of the package (each a list of paragraphs),
    which sections refer to by position and may share. *)
Record Document : Type := mkDocument {
  sections : list Section;
  paragraphs : list Paragraph;
  parts : list (list Paragraph)
}.

Inductive HdrFtr : Type := Header | Footer.

Definition part_ref (k : HdrFtr) (s : Section) : option nat :=
  match k with Header => header_part s | Footer => footer_part s end.

Definition set_part_ref (k : HdrFtr) (s : Section) (r : nat) : Section :=
  match k with
  | Header => mkSection (orientation s) (page_width s) (page_height s)
                (top_margin s) (bottom_margin s) (left_margin s)
                (right_margin s) (Some r) (footer_part s)
  | Footer => mkSection (orientation s) (page_width s) (page_height s)
                (top_margin s) (bottom_margin s) (left_margin s)
                (right_margin s) (header_part s) (Some r)
  end.

(** The paragraph of a header or footer part the library creates. *)
Definition new_part (k : HdrFtr) : list Paragraph :=
  [mkParagraph (match k with Header => "Header" | Footer => "Footer" end) []].

(** Which part stands behind [section.header] / [section.footer] of the
    [i]-th section: its own, else the one of the section before it; the
    first section gets a new part when it has none.  Returns the document
    (changed in the last case only) and the position of the part. *)
Fixpoint get_or_add_definition (k : HdrFtr) (doc : Document) (i : nat)
    : Document * nat :=
  match sections doc !! i with
  | None => (doc, length (parts doc))
  | Some s =>
      match part_ref k s with
      | Some r => (doc, r)
      | None =>
          match i with
          | S j => get_or_add_definition k doc j
          | O =>
              let r := length (parts doc) in
              (mkDocument (<[0 := set_part_ref k s r]> (sections doc))
                          (paragraphs doc)
                          (parts doc ++ [new_part k]), r)
          end
      end
  end.

(** [Length.twips]: [int(round(self / 635.0))] *)
Definition twips (emu : Z) : result Z :=
  round_float (float_div (float_of_int emu) (float_of_int 635)).

(** ** Library calls whose bodies are outside the repository *)
Class Library : Type := {
  (* [Document(io.BytesIO(b))]: raises on a package it cannot read *)
  load : bytes -> result Document;
  (* [doc.save(bio); bio.getvalue()] *)
  save : Document -> bytes;
  (* [Composer(base).append(src)], then the composed document *)
  Composer_append : Document -> Document -> result Document;
  (* [re.sub(pattern, repl, text, flags=re.MULTILINE)] *)
  re_sub : value -> value -> string -> result string;
  (* [Mm(float(v))], in the unit the section attributes are kept in *)
  Mm_float : value -> result Z;
  (* [str(v)] of a float, list or dictionary *)
  repr : value -> string
}.

End Docx.

Import Docx.

(* ===================================================================== *)
(** * processor.py *)
(* ===================================================================== *)

Module Processor.
Section processor.
Context `{!Library}.

(** [str(v)] *)
Definition str (v : value) : string :=
  match v with
  | VStr s => s
  | VNone => "None"
  | VBool true => "True"
  | VBool false => "False"
  | VInt z => pretty z
  | VFloat _ | VList _ | VDict _ => repr v
  end.

(** [k in v] for a string [k]: a key of a dictionary, an element of a
    list, a substring of a string; a [TypeError] for anything else. *)
Definition contains (v : value) (k : string) : result bool :=
  match v with
  | VDict d => Ok (bool_decide (is_Some (d !! k)))
  | VList l =>
      Ok (existsb (fun x => match x with
                            | VStr s => bool_decide (s = k)
                            | _ => false
                            end) l)
  | VStr s =>
      Ok (match String.index 0 k s with Some _ => true | None => false end)
  | VNone | VBool _ | VInt _ | VFloat _ =>
      Raise (Exception "argument of this type is not iterable")
  end.

(** [v[k]] for a string [k] *)
Definition getitem (v : value) (k : string) : result value :=
  match v with
  | VDict d =>
      match d !! k with
      | Some x => Ok x
      | None => Raise (Exception k)
      end
  | _ => Raise (Exception "indices must be integers")
  end.

Definition _doc_to_bytes (doc : Document) : bytes := save doc.

(** ** [compose_into_template] *)
Definition compose_into_template (src_docx_bytes template_docx_bytes : bytes)
    : result bytes :=
  base ← load template_docx_bytes;
  src ← load src_docx_bytes;
  comp ← Composer_append base src;
  Ok (save comp).

(** ** [apply_find_replace] *)

(** The text the substitution runs on:
    ["".join(run.text for run in p.runs) or p.text] *)
Definition source_text (p : Paragraph) : string :=
  let joined := join (run_text <$> runs p) in
  if bool_decide (joined = "") then text p else joined.

(** The loop [for _ in range(len(p.runs))] that drops the first run each
    time round. *)
Definition clear_runs (p : Paragraph) : Paragraph :=
  mkParagraph (style p)
    (Nat.iter (length (runs p)) remove_first_run (content p)).

Definition replace_in_paragraph (p : Paragraph) (pattern repl : value)
    : result Paragraph :=
  let text := source_text p in
  new_text ← re_sub pattern repl text;
  if bool_decide (new_text ≠ text)
  then Ok (add_run (clear_runs p) new_text)
  else Ok p.

(** The body of [for rule in rules]; a rule that is no dictionary has no
    [get]. *)
Definition apply_rule (p : Paragraph) (rule : value) : result Paragraph :=
  match rule with
  | VDict r =>
      let pattern := dict_get r "pattern" in
      let repl := dict_get_default r "replace" (VStr "") in
      if truthy pattern then replace_in_paragraph p pattern repl else Ok p
  | _ => Raise (Exception "object has no attribute 'get'")
  end.

(** [for rule in rules: ...] on one paragraph *)
Fixpoint apply_rules (p : Paragraph) (rules : list value) : result Paragraph :=
  match rules with
  | [] => Ok p
  | rule :: rules' => p' ← apply_rule p rule; apply_rules p' rules'
  end.

(** [for p in container.paragraphs: ...] on the part behind a header or
    footer *)
Definition replace_in_part (rules : list value) (doc : Document) (r : nat)
    : result Document :=
  match parts doc !! r with
  | Some ps =>
      ps' ← mapM (fun p => apply_rules p rules) ps;
      Ok (mkDocument (sections doc) (paragraphs doc) (<[r := ps']> (parts doc)))
  | None => Ok doc
  end.

(** [for container in (section.header, section.footer): ...] *)
Definition replace_in_section (rules : list value) (doc : Document) (i : nat)
    : result Document :=
  let '(doc, r) := get_or_add_definition Header doc i in
  doc ← replace_in_part rules doc r;
  let '(doc, r) := get_or_add_definition Footer doc i in
  replace_in_part rules doc r.

(** [for section in doc.sections: ...] *)
Fixpoint replace_in_sections (rules : list value) (doc : Document)
    (idx : list nat) : result Document :=
  match idx with
  | [] => Ok doc
  | i :: idx' =>
      doc' ← replace_in_section rules doc i;
      replace_in_sections rules doc' idx'
  end.

Definition find_replace_document (doc : Document) (rules : list value)
    : result Document :=
  ps ← mapM (fun p => apply_rules p rules) (paragraphs doc);
  replace_in_sections rules
    (mkDocument (sections doc) ps (parts doc))
    (seq 0 (length (sections doc))).

Definition apply_find_replace (docx_bytes : bytes) (rules : list value)
    : result bytes :=
  doc ← load docx_bytes;
  doc' ← find_replace_document doc rules;
  Ok (_doc_to_bytes doc').

(** ** [apply_page_setup] *)

Inductive Side : Type := Top | Bottom | Left | Right.

Definition side_name (sd : Side) : string :=
  match sd with
  | Top => "top" | Bottom => "bottom" | Left => "left" | Right => "right"
  end.

(** The section with the margin [v] on the side [sd]. *)
Definition set_margin (sd : Side) (v : Z) (s : Section) : Section :=
  match sd with
  | Top => mkSection (orientation s) (page_width s) (page_height s)
             (Some v) (bottom_margin s) (left_margin s) (right_margin s)
             (header_part s) (footer_part s)
  | Bottom => mkSection (orientation s) (page_width s) (page_height s)
             (top_margin s) (Some v) (left_margin s) (right_margin s)
             (header_part s) (footer_part s)
  | Left => mkSection (orientation s) (page_width s) (page_height s)
             (top_margin s) (bottom_margin s) (Some v) (right_margin s)
             (header_part s) (footer_part s)
  | Right => mkSection (orientation s) (page_width s) (page_height s)
             (top_margin s) (bottom_margin s) (left_margin s) (Some v)
             (header_part s) (footer_part s)
  end.

Definition set_orientation (o : WD_ORIENT) (s : Section) : Section :=
  mkSection o (page_width s) (page_height s)
    (top_margin s) (bottom_margin s) (left_margin s) (right_margin s)
    (header_part s) (footer_part s).

Definition set_page_size (w h : option Z) (s : Section) : Section :=
  mkSection (orientation s) w h
    (top_margin s) (bottom_margin s) (left_margin s) (right_margin s)
    (header_part s) (footer_part s).

(** The lengths a margin attribute takes.  The document library keeps the
    top and bottom margin as a signed 32-bit number and the left and right
    margin as an unsigned 64-bit number, and checks the length it is given
    against that range. *)
Definition margin_in_range (sd : Side) (emu : Z) : bool :=
  match sd with
  | Top | Bottom => bool_decide (-2147483648 <= emu <= 2147483647)%Z
  | Left | Right => bool_decide (0 <= emu <= 18446744073709551615)%Z
  end.

(** What a margin attribute holds once the length [emu] is assigned to it:
    a [ValueError] for a length out of range; else the library writes the
    length in twips, and reads 635 units for each twip. *)
Definition margin_length (sd : Side) (emu : Z) : result Z :=
  if margin_in_range sd emu
  then t ← twips emu; Ok (t * 635)%Z
  else Raise (Exception "value must be in range of the attribute").

(** [setattr(section, attr, length)] for the four margin attributes *)
Definition setattr_margin (sd : Side) (emu : Z) (s : Section) : result Section :=
  v ← margin_length sd emu;
  Ok (set_margin sd v s).

(** [if side in margins: setattr(section, attr, Mm(float(margins[side])))] *)
Definition apply_margin (margins : value) (s : Section) (sd : Side)
    : result Section :=
  present ← contains margins (side_name sd);
  if (present : bool) then
    v ← getitem margins (side_name sd);
    emu ← Mm_float v;
    setattr_margin sd emu s
  else Ok s.

Fixpoint apply_margins (margins : value) (s : Section) (sides : list Side)
    : result Section :=
  match sides with
  | [] => Ok s
  | sd :: sides' => s' ← apply_margin margins s sd; apply_margins margins s' sides'
  end.

(** The body of [for section in doc.sections] *)
Definition page_setup_section (orientation : string) (margins : value)
    (s : Section) : result Section :=
  let s1 :=
    if bool_decide (orientation = "landscape")
    then set_page_size (page_height s) (page_width s)
           (set_orientation LANDSCAPE s)
    else set_orientation PORTRAIT s in
  apply_margins margins s1 [Top; Bottom; Left; Right].

(** [str(cfg.get("orientation", "portrait")).lower()] *)
Definition configured_orientation (cfg : gmap string value) : string :=
  lower (str (dict_get_default cfg "orientation" (VStr "portrait"))).

Definition page_setup_document (doc : Document) (cfg : gmap string value)
    : result Document :=
  let orientation := configured_orientation cfg in
  let margins := dict_get_default cfg "margins_mm" (VDict ∅) in
  ss ← mapM (page_setup_section orientation margins) (sections doc);
  Ok (mkDocument ss (paragraphs doc) (parts doc)).

Definition apply_page_setup (docx_bytes : bytes) (cfg : gmap string value)
    : result bytes :=
  doc ← load docx_bytes;
  doc' ← page_setup_document doc cfg;
  Ok (_doc_to_bytes doc').

End processor.
End Processor.

(* ===================================================================== *)
(** * app.py *)
(* ===================================================================== *)

Module App.

(** An uploaded file: [item.name] and [item.getvalue()]. *)
Module UploadedFile.
Record t : Type := mk { name : string; getvalue : bytes }.
End UploadedFile.

(** A member of a zip archive: [zi.filename], [zi.is_dir()] and the
    outcome of [zf.read(zi)]. *)
Module ZipInfo.
Record t : Type := mk { filename : string; is_dir : bool; read : result bytes }.
End ZipInfo.

(** Standard-library calls whose bodies are outside the repository. *)
Class Runtime : Type := {
  (* [zipfile.ZipFile(io.BytesIO(b)).infolist()]: the members in archive
     order; raises on data that is no zip archive *)
  ZipFile : bytes -> result (list ZipInfo.t);
  (* [Path(name).stem] *)
  Path_stem : string -> string
}.

(** The five functions [app.py] imports from [processor.py] and calls. *)
Class Steps : Type := {
  compose_into_template : bytes -> bytes -> result bytes;
  apply_page_setup : bytes -> gmap string value -> result bytes;
  set_header_footer : bytes -> gmap string value -> result bytes;
  apply_style_mappings : bytes -> gmap string value -> result bytes;
  apply_find_replace : bytes -> list value -> result bytes
}.

(** ** The log of calls

    [process_one] is embedded together with a record of the calls it
    makes into [processor.py]: which function, on which document bytes,
    with which outcome.  The log is not program state; it is what the
    properties about the order and the number of calls speak about. *)
Inductive Step : Type :=
  Compose | PageSetup | HeaderFooter | StyleMap | FindReplace.

#[global] Instance Step_eq_dec : EqDecision Step.
Proof. solve_decision. Defined.

Record Call : Type := mkCall {
  call_step : Step;
  call_input : bytes;
  call_output : result bytes
}.

Definition traced (A : Type) : Type := list Call * result A.

#[global] Instance traced_ret : MRet traced := fun _ a => ([], Ok a).
#[global] Instance traced_bind : MBind traced := fun _ _ f m =>
  match m with
  | (log, Ok a) => let '(log', r) := f a in (log ++ log', r)
  | (log, Raise e) => (log, Raise e)
  end.

Definition invoke (st : Step) (f : bytes -> result bytes) (input : bytes)
    : traced bytes :=
  ([mkCall st input (f input)], f input).

(** ** [iter_input_docs] *)
Section iter_input_docs.
Context `{!Runtime}.

(** [for zi in zf.infolist(): ...] *)
Fixpoint zip_members (infolist : list ZipInfo.t)
    (results : list (string * bytes)) : result (list (string * bytes)) :=
  match infolist with
  | [] => Ok results
  | zi :: infolist' =>
      if negb (ZipInfo.is_dir zi)
         && endswith (lower (ZipInfo.filename zi)) ".docx"
      then
        data ← ZipInfo.read zi;
        zip_members infolist'
          (results ++ [(Path_name (ZipInfo.filename zi), data)])
      else zip_members infolist' results
  end.

(** [for item in uploaded_items or []: ...] *)
Fixpoint iter_items (items : list UploadedFile.t)
    (results : list (string * bytes)) : result (list (string * bytes)) :=
  match items with
  | [] => Ok results
  | item :: items' =>
      let name := lower (UploadedFile.name item) in
      if endswith name ".docx" then
        iter_items items'
          (results ++ [(UploadedFile.name item, UploadedFile.getvalue item)])
      else if endswith name ".zip" then
        infolist ← ZipFile (UploadedFile.getvalue item);
        results' ← zip_members infolist results;
        iter_items items' results'
      else iter_items items' results
  end.

Definition iter_input_docs (uploaded_items : option (list UploadedFile.t))
    : result (list (string * bytes)) :=
  iter_items (default [] uploaded_items) [].
End iter_input_docs.

(** ** [process_one]

    The configuration is a dictionary, as the signature
    [cfg: Dict[str, Any]] says. *)
Section process_one.
Context `{!Steps}.

Definition process_one (name : string) (data tpl_bytes : bytes)
    (cfg : gmap string value) : traced bytes :=
  (* Step 1: compose legacy content into template *)
  composed ← invoke Compose (fun d => compose_into_template d tpl_bytes) data;
  (* Step 2: apply page setup/header/footer on the composed doc *)
  composed ← match cfg !! "page_setup" ≫= as_dict with
             | Some c => invoke PageSetup (fun b => apply_page_setup b c) composed
             | None => mret composed
             end;
  composed ← match cfg !! "header_footer" ≫= as_dict with
             | Some c => invoke HeaderFooter (fun b => set_header_footer b c) composed
             | None => mret composed
             end;
  (* Step 3: style mappings and find/replace *)
  composed ← match cfg !! "style_map" ≫= as_dict with
             | Some c => invoke StyleMap (fun b => apply_style_mappings b c) composed
             | None => mret composed
             end;
  composed ← match cfg !! "find_replace" ≫= as_list with
             | Some c => invoke FindReplace (fun b => apply_find_replace b c) composed
             | None => mret composed
             end;
  mret composed.

(** What [process_one] returns or raises, and the calls it made. *)
Definition process_one_result (name : string) (data tpl_bytes : bytes)
    (cfg : gmap string value) : result bytes :=
  snd (process_one name data tpl_bytes cfg).
Definition process_one_calls (name : string) (data tpl_bytes : bytes)
    (cfg : gmap string value) : list Call :=
  fst (process_one name data tpl_bytes cfg).
End process_one.

(** ** The [run_btn] branch *)

(** An entry of the output archive. *)
Record ZipEntry : Type := mkEntry { entry_name : string; entry_data : bytes }.

(** [zf.writestr(name, data)]: one more entry at the end of the archive,
    also when an entry of that name exists already. *)
Definition writestr (zf : list ZipEntry) (name : string) (data : bytes)
    : list ZipEntry :=
  zf ++ [mkEntry name data].

Section run.
Context `{!Runtime} `{!Steps}.
Variable tpl_bytes : bytes.
Variable cfg : gmap string value.

(** The body of the loop: [try: ... except Exception as e: ...] *)
Definition process_doc (zf : list ZipEntry) (doc : string * bytes)
    : list ZipEntry :=
  let '(name, data) := doc in
  match process_one_result name data tpl_bytes cfg with
  | Ok out_bytes =>
      let out_name := Path_stem name +:+ "_refit.docx" in
      writestr zf out_name out_bytes
  | Raise e =>
      writestr zf (Path_stem name +:+ "__ERROR.txt")
        (encode_utf8 ("Failed to process " +:+ name +:+ ": " +:+ str_of_exn e))
  end.

(** [for i, (name, data) in enumerate(docs, start=1): ...] *)
Fixpoint process_docs (docs : list (string * bytes)) (zf : list ZipEntry)
    : list ZipEntry :=
  match docs with
  | [] => zf
  | doc :: docs' => process_docs docs' (process_doc zf doc)
  end.

(** [if run_btn: ...]: no archive when there is nothing to process. *)
Definition run_all (docs : list (string * bytes)) : option (list ZipEntry) :=
  if bool_decide (docs = []) then None else Some (process_docs docs []).

(** The script from the uploads to the archive;
    [docs = iter_input_docs(files)] is outside any [try]. *)
Definition run_script (files : option (list UploadedFile.t))
    : result (option (list ZipEntry)) :=
  docs ← iter_input_docs files;
  Ok (run_all docs).
End run.

End App.

Import App.

(* ===================================================================== *)
(** * The vocabulary of the specification

    Definitions that follow the words of the specification rather than the
    source; the properties below compare them with the embedded code. *)
(* ===================================================================== *)

Module Spec.

(** A document whose file name ends in [.docx], whatever the case of
    the letters. *)
Definition docx_name (doc : string * bytes) : Prop :=
  endswith (lower doc.1) ".docx" = true.

(** ** Expanding the uploads *)
Section contribution.
Context `{!Runtime}.

(** What a member of an uploaded zip contributes: itself under its base
    name if it is a [.docx] file and no directory, nothing otherwise. *)
Definition member_contribution (zi : ZipInfo.t) : result (list (string * bytes)) :=
  if negb (ZipInfo.is_dir zi) && endswith (lower (ZipInfo.filename zi)) ".docx"
  then data ← ZipInfo.read zi; Ok [(Path_name (ZipInfo.filename zi), data)]
  else Ok [].

(** What an upload contributes: a [.docx] itself, a [.zip] its [.docx]
    members in archive order, anything else nothing. *)
Definition contribution (item : UploadedFile.t) : result (list (string * bytes)) :=
  if endswith (lower (UploadedFile.name item)) ".docx"
  then Ok [(UploadedFile.name item, UploadedFile.getvalue item)]
  else if endswith (lower (UploadedFile.name item)) ".zip"
  then infolist ← ZipFile (UploadedFile.getvalue item);
       @concat _ <$> mapM member_contribution infolist
  else Ok [].

(** The expanded input list. *)
Definition expanded (items : list UploadedFile.t) : result (list (string * bytes)) :=
  @concat _ <$> mapM contribution items.
End contribution.

(** ** The pipeline as a list of steps *)
Section steps.
Context `{!Steps}.

(** ["k" in cfg and isinstance(cfg["k"], dict)] (or [list]) *)
Definition has_dict (cfg : gmap string value) (k : string) : bool :=
  match cfg !! k ≫= as_dict with Some _ => true | None => false end.
Definition has_list (cfg : gmap string value) (k : string) : bool :=
  match cfg !! k ≫= as_list with Some _ => true | None => false end.

(** The order in which the specification lists the steps. *)
Definition fixed_order : list Step :=
  [Compose; PageSetup; HeaderFooter; StyleMap; FindReplace].

(** Whether the configuration asks for a step. *)
Definition configured (cfg : gmap string value) (st : Step) : bool :=
  match st with
  | Compose => true
  | PageSetup => has_dict cfg "page_setup"
  | HeaderFooter => has_dict cfg "header_footer"
  | StyleMap => has_dict cfg "style_map"
  | FindReplace => has_list cfg "find_replace"
  end.

(** The function behind a step, given the template and the
    configuration; a step that is not configured does nothing. *)
Definition step_function (tpl_bytes : bytes) (cfg : gmap string value)
    (st : Step) (b : bytes) : result bytes :=
  match st with
  | Compose => compose_into_template b tpl_bytes
  | PageSetup =>
      match cfg !! "page_setup" ≫= as_dict with
      | Some c => apply_page_setup b c | None => Ok b end
  | HeaderFooter =>
      match cfg !! "header_footer" ≫= as_dict with
      | Some c => set_header_footer b c | None => Ok b end
  | StyleMap =>
      match cfg !! "style_map" ≫= as_dict with
      | Some c => apply_style_mappings b c | None => Ok b end
  | FindReplace =>
      match cfg !! "find_replace" ≫= as_list with
      | Some c => apply_find_replace b c | None => Ok b end
  end.

(** Run the given steps one after the other, each on the bytes the one
    before it produced, stopping at the first that raises. *)
Fixpoint run_steps (tpl_bytes : bytes) (cfg : gmap string value)
    (steps : list Step) (b : bytes) : traced bytes :=
  match steps with
  | [] => mret b
  | st :: steps' =>
      b' ← invoke st (step_function tpl_bytes cfg st) b;
      run_steps tpl_bytes cfg steps' b'
  end.

(** A log is chained from [input] to the outcome [r]: the first call
    receives [input], every later call receives the bytes the call
    before it returned, a call that raises is the last one, and [r] is
    what the last call returned or raised ([input] itself when nothing
    was called). *)
Fixpoint chained (input : bytes) (log : list Call) (r : result bytes) : Prop :=
  match log with
  | [] => r = Ok input
  | c :: log' =>
      call_input c = input /\
      match call_output c with
      | Ok out => chained out log' r
      | Raise e => log' = [] /\ r = Raise e
      end
  end.

(** Compose, page geometry and header/footer only. *)
Definition layout_only (data tpl_bytes : bytes) (cfg : gmap string value)
    : traced bytes :=
  run_steps tpl_bytes cfg
    (List.filter (configured cfg) [Compose; PageSetup; HeaderFooter]) data.
End steps.

(** ** The entry a document leaves in the archive *)
Section entry.
Context `{!Runtime} `{!Steps}.

Definition entry_for (tpl_bytes : bytes) (cfg : gmap string value)
    (doc : string * bytes) : ZipEntry :=
  match process_one_result doc.1 doc.2 tpl_bytes cfg with
  | Ok out_bytes => mkEntry (Path_stem doc.1 +:+ "_refit.docx") out_bytes
  | Raise e =>
      mkEntry (Path_stem doc.1 +:+ "__ERROR.txt")
        (encode_utf8 ("Failed to process " +:+ doc.1 +:+ ": " +:+ str_of_exn e))
  end.
End entry.

(** ** Paragraphs under find/replace *)

(** What is left of a paragraph's content once its runs are gone. *)
Definition without_runs (c : list Inline) : list Inline :=
  List.filter (fun i => match i with IRun _ => false | IHyperlink _ => true end) c.

(** The paragraph with all its runs replaced by one run holding [t]. *)
Definition single_run (p : Paragraph) (t : string) : Paragraph :=
  mkParagraph (style p) (without_runs (content p) ++ [IRun (mkRun t None)]).

(** A paragraph after find/replace: as it was, or with its runs replaced
    by a single run. *)
Definition untouched_or_single_run (p p' : Paragraph) : Prop :=
  p' = p \/ exists t, p' = single_run p t.

Section rules.
Context `{!Library}.


End rules.

(** The header and footer parts after find/replace: the parts there
    were, followed by the parts the library created for a first section
    that had none, each paragraph as it was or with a single run. *)
Definition parts_edited (ps ps' : list (list Paragraph)) : Prop :=
  exists added,
    Forall (fun a => a = new_part Header \/ a = new_part Footer) added
    /\ Forall2 (Forall2 untouched_or_single_run) (ps ++ added) ps'.

(** What find/replace may do to a document besides rewriting the
    paragraphs of its body. *)
Definition find_replace_frame (doc doc' : Document) : Prop :=
  paragraphs doc' = paragraphs doc
  /\ length (sections doc') = length (sections doc)
  /\ parts_edited (parts doc) (parts doc').



End Spec.

Import Spec.

(* ===================================================================== *)
(** * A small instance to run the model on

    The properties below hold for every document library and every
    runtime.  To evaluate the model on concrete inputs, this module
    supplies a small stand-in: a package format of three bytes of page
    geometry followed by the text of one paragraph, a composer that
    appends the paragraphs, a substitution that replaces a text equal to
    the pattern, and one known zip archive. *)
(* ===================================================================== *)

Module Sample.

Definition byte_of_Z (z : Z) : Byte.byte :=
  default Byte.x00 (Byte.of_N (Z.to_N z)).
Definition Z_of_byte (b : Byte.byte) : Z := Z.of_N (Byte.to_N b).

Definition sample_load (b : bytes) : result Document :=
  match b with
  | o :: w :: h :: t =>
      Ok (mkDocument
            [mkSection (if Byte.eqb o Byte.x00 then PORTRAIT else LANDSCAPE)
               (Some (Z_of_byte w)) (Some (Z_of_byte h))
               None None None None None None]
            [mkParagraph "Normal" [IRun (mkRun (String.string_of_list_byte t) None)]]
            [])
  | _ => Raise (Exception "Package not found")
  end.

Definition sample_save (doc : Document) : bytes :=
  match sections doc with
  | s :: _ =>
      [match orientation s with PORTRAIT => Byte.x00 | LANDSCAPE => Byte.x01 end;
       byte_of_Z (default 0%Z (page_width s));
       byte_of_Z (default 0%Z (page_height s))]
      ++ encode_utf8 (join (text <$> paragraphs doc))
  | [] => []
  end.

Definition sample_re_sub (pattern repl : value) (t : string) : result string :=
  match pattern, repl with
  | VStr p, VStr r => Ok (if bool_decide (t = p) then r else t)
  | _, _ => Raise (Exception "expected str instance")
  end.

(** [Mm(float(v))] for a number: [int(float(v) * 36000)].  This library
    takes no string for a number. *)
Definition sample_Mm_float (v : value) : result Z :=
  match v with
  | VBool b =>
      int_of_float (float_mul (float_of_int (if b then 1 else 0))
                      (float_of_int 36000))
  | VInt z => int_of_float (float_mul (float_of_int z) (float_of_int 36000))
  | VFloat x => int_of_float (float_mul x (float_of_int 36000))
  | VStr _ => Raise (Exception "could not convert string to float")
  | _ => Raise (Exception "float() argument must be a string or a real number")
  end.

(** The float [25.4], the millimetres of an inch. *)
Definition inch : float := S754_finite false 7149464408450662 (-48).

#[global] Instance library : Library := {|
  load := sample_load;
  save := sample_save;
  Composer_append base src :=
    Ok (mkDocument (sections base) (paragraphs base ++ paragraphs src) (parts base));
  re_sub := sample_re_sub;
  Mm_float := sample_Mm_float;
  repr _ := "[...]"
|}.

(** [Path(name).stem], as [name[:i]] for the last dot at [0 < i < len - 1]. *)
Definition sample_stem (s : string) : string :=
  let name := chars (Path_name s) in
  match list_find (fun c => c = "."%char) (reverse name) with
  | Some (j, _) =>
      if bool_decide (0 < j < length name - 1)
      then of_chars (take (length name - 1 - j) name)
      else of_chars name
  | None => of_chars name
  end.

(** The bytes of the one archive the sample runtime can open, and its
    members. *)
Definition archive_bytes : bytes := encode_utf8 "PK".

Definition archive_members : list ZipInfo.t :=
  [ZipInfo.mk "legacy/" true (Ok []);
   ZipInfo.mk "legacy/Report.DOCX" false (Ok (Byte.x00 :: Byte.x0a :: Byte.x14 :: encode_utf8 "ACME"));
   ZipInfo.mk "legacy/notes.txt" false (Ok (encode_utf8 "n"));
   ZipInfo.mk "legacy/inner.zip" false (Ok archive_bytes);
   ZipInfo.mk "broken.docx" false (Ok [])].

#[global] Instance runtime : Runtime := {|
  ZipFile b :=
    if bool_decide (b = archive_bytes) then Ok archive_members
    else Raise (Exception "File is not a zip file");
  Path_stem := sample_stem
|}.

(** The steps: the embedded functions of [processor.py] on the sample
    library; the two functions that are not embedded leave the bytes as
    they are. *)
#[global] Instance steps : Steps := {|
  compose_into_template := Processor.compose_into_template;
  apply_page_setup := Processor.apply_page_setup;
  set_header_footer b _ := Ok b;
  apply_style_mappings b _ := Ok b;
  apply_find_replace := Processor.apply_find_replace
|}.

Definition template : bytes := Byte.x00 :: Byte.x15 :: Byte.x1d :: encode_utf8 "".

Definition letter : UploadedFile.t :=
  UploadedFile.mk "Letter.docx" (Byte.x00 :: Byte.x0a :: Byte.x14 :: encode_utf8 "Dear").
Definition picture : UploadedFile.t :=
  UploadedFile.mk "logo.png" (encode_utf8 "png").
Definition bundle : UploadedFile.t :=
  UploadedFile.mk "old.ZIP" archive_bytes.

(** What the three uploads expand to; the last document cannot be
    loaded. *)
Definition documents : list (string * bytes) :=
  [("Letter.docx", Byte.x00 :: Byte.x0a :: Byte.x14 :: encode_utf8 "Dear");
   ("Report.DOCX", Byte.x00 :: Byte.x0a :: Byte.x14 :: encode_utf8 "ACME");
   ("broken.docx", [])].

Definition full_config : gmap string value :=
  {[ "page_setup" := VDict {[ "orientation" := VStr "landscape" ]};
     "header_footer" := VDict {[ "header_text" := VStr "New" ]};
     "style_map" := VDict {[ "Heading 1" := VStr "Title" ]};
     "find_replace" := VList [VDict {[ "pattern" := VStr "ACME"; "replace" := VStr "Your Company" ]}] ]}.

End Sample.
(* ===================================================================== *)
(** * processor.py: style mappings and header/footer *)
(* ===================================================================== *)

Module ProcessorRest.

(** Further library calls whose bodies are outside the repository. *)
Class StyleLibrary : Type := {
  (* [p.style = doc.styles[v]]: the name of the style the paragraph has
     afterwards; raises when the document has no such style or the style
     is no paragraph style *)
  styles_getitem : Document -> value -> result string;
  (* [p.text = v] for a [v] that is no string: the text the one run of the
     paragraph gets, or the exception *)
  text_of_value : value -> result string;
  (* the name of the style of a paragraph made by [add_paragraph("")] *)
  default_style : Document -> string
}.

Section processor_rest.
Context `{!Library} `{!StyleLibrary}.

(** ** [apply_style_mappings] *)

(** The body of [for p in doc.paragraphs], with its [try] and
    [except Exception: pass].  Every paragraph of the model has a style, so
    [p.style] is true. *)
Definition map_style (doc : Document) (mapping : gmap string value)
    (p : Paragraph) : Paragraph :=
  match
    (if bool_decide (is_Some (mapping !! style p))
     then
       target ← Processor.getitem (VDict mapping) (style p);
       name ← styles_getitem doc target;
       Ok (mkParagraph name (content p))
     else Ok p)
  with
  | Ok p' => p'
  | Raise _ => p
  end.

Definition style_mappings_document (doc : Document) (mapping : gmap string value)
    : Document :=
  mkDocument (sections doc) (map_style doc mapping <$> paragraphs doc) (parts doc).

Definition apply_style_mappings (docx_bytes : bytes) (mapping : gmap string value)
    : result bytes :=
  doc ← load docx_bytes;
  Ok (Processor._doc_to_bytes (style_mappings_document doc mapping)).

(** ** [set_header_footer] *)

(** [p.text = t] for a string [t]: everything in the paragraph but its
    properties goes, one run with the text comes. *)
Definition set_text (p : Paragraph) (t : string) : Paragraph :=
  mkParagraph (style p) [IRun (mkRun t None)].

(** [p.text = v] *)
Definition set_text_value (p : Paragraph) (v : value) : result Paragraph :=
  match v with
  | VStr t => Ok (set_text p t)
  | _ => t ← text_of_value v; Ok (set_text p t)
  end.

(** The paragraphs of a header or footer once the code has made sure there
    is one: [container.add_paragraph("")] when there is none. *)
Definition ensure_paragraph (doc : Document) (ps : list Paragraph)
    : list Paragraph :=
  match ps with
  | [] => [mkParagraph (default_style doc) []]
  | _ :: _ => ps
  end.

(** The run made by [p.add_run("")] once the field characters, the
    instruction [PAGE] and the text element [1] are appended to it: the text
    [run.text] reads from it is the placeholder. *)
Definition page_field_run : Run := mkRun "1" None.

(** ["".join(parts)]: a [TypeError] when an item is no string *)
Fixpoint join_values (parts : list value) : result string :=
  match parts with
  | [] => Ok ""
  | VStr s :: parts' => rest ← join_values parts'; Ok (s +:+ rest)
  | _ :: _ => Raise (Exception "sequence item: expected str instance")
  end.

(** The items of [parts] in the footer branch. *)
Definition footer_parts (footer_text : value) (include_page_numbers : bool)
    : list value :=
  let parts := if truthy footer_text then [footer_text] else [] in
  if include_page_numbers
  then (if bool_decide (parts = []) then parts else parts ++ [VStr " — "])
       ++ [VStr "Page "]
  else parts.

(** What the header branch does to the first paragraph of the header. *)
Definition header_paragraph (header_text : value) (p : Paragraph)
    : result Paragraph :=
  set_text_value p header_text.

(** What the footer branch does to the first paragraph of the footer. *)
Definition footer_paragraph (footer_text : value) (include_page_numbers : bool)
    (p : Paragraph) : result Paragraph :=
  let parts := footer_parts footer_text include_page_numbers in
  let p := if include_page_numbers
           then mkParagraph (style p) (content p ++ [IRun page_field_run])
           else p in
  if bool_decide (parts = []) then Ok p
  else if bool_decide (text p = "")
       then joined ← join_values parts; Ok (set_text p joined)
       else joined ← join_values parts; Ok (set_text p (joined +:+ text p)).

(** [f] on the first paragraph of the header or footer of the [i]-th
    section, a paragraph being added when there is none. *)
Definition on_first_paragraph (k : HdrFtr) (f : Paragraph -> result Paragraph)
    (doc : Document) (i : nat) : result Document :=
  let '(doc, r) := get_or_add_definition k doc i in
  match parts doc !! r with
  | Some ps =>
      match ensure_paragraph doc ps with
      | p :: ps' =>
          p' ← f p;
          Ok (mkDocument (sections doc) (paragraphs doc)
                (<[r := p' :: ps']> (parts doc)))
      | [] => Ok doc
      end
  | None => Ok doc
  end.

Definition is_None (v : value) : bool :=
  match v with VNone => true | _ => false end.

(** The body of [for section in doc.sections] *)
Definition header_footer_section (header_text footer_text : value)
    (include_page_numbers : bool) (doc : Document) (i : nat) : result Document :=
  doc ← (if negb (is_None header_text)
         then on_first_paragraph Header (header_paragraph header_text) doc i
         else Ok doc);
  if negb (is_None footer_text) || include_page_numbers
  then on_first_paragraph Footer
         (footer_paragraph footer_text include_page_numbers) doc i
  else Ok doc.

Fixpoint header_footer_sections (header_text footer_text : value)
    (include_page_numbers : bool) (doc : Document) (idx : list nat)
    : result Document :=
  match idx with
  | [] => Ok doc
  | i :: idx' =>
      doc' ← header_footer_section header_text footer_text
               include_page_numbers doc i;
      header_footer_sections header_text footer_text include_page_numbers
        doc' idx'
  end.

Definition header_footer_document (doc : Document) (cfg : gmap string value)
    : result Document :=
  let header_text := dict_get cfg "header_text" in
  let footer_text := dict_get cfg "footer_text" in
  let include_page_numbers :=
    truthy (dict_get_default cfg "include_page_numbers" (VBool false)) in
  header_footer_sections header_text footer_text include_page_numbers doc
    (seq 0 (length (sections doc))).

Definition set_header_footer (docx_bytes : bytes) (cfg : gmap string value)
    : result bytes :=
  doc ← load docx_bytes;
  doc' ← header_footer_document doc cfg;
  Ok (Processor._doc_to_bytes doc').

(** The five functions of [processor.py] that [app.py] imports. *)
Definition processor_steps : Steps := {|
  compose_into_template := Processor.compose_into_template;
  apply_page_setup := Processor.apply_page_setup;
  App.set_header_footer := set_header_footer;
  App.apply_style_mappings := apply_style_mappings;
  apply_find_replace := Processor.apply_find_replace
|}.

End processor_rest.
End ProcessorRest.


(* ===================================================================== *)
(** * app.py: configuration loading and untyped configurations *)
(* ===================================================================== *)

Module AppRest.

(** Calls whose bodies are outside the repository. *)
Class Yaml : Type := {
  (* [yaml.safe_load(text)]: the loaded value, or the parse error *)
  safe_load : string -> result value;
  (* [yaml.safe_load(data)] on the bytes of an uploaded file *)
  safe_load_bytes : bytes -> result value;
  (* [text.strip()] *)
  strip : string -> string
}.

(** ** [load_config] *)
Section load_config.
Context `{!Yaml}.

(** [v or {}] *)
Definition or_empty (v : value) : value :=
  if truthy v then v else VDict ∅.

(** [load_config()] for the text of the editor and the uploaded file, if
    any: the configuration, and the message given to [st.error], if any. *)
Definition load_config (cfg_text : string) (cfg_file : option bytes)
    : value * option string :=
  if negb (bool_decide (strip cfg_text = "")) then
    match safe_load cfg_text with
    | Ok v => (or_empty v, None)
    | Raise e => (VDict ∅, Some ("Invalid YAML in editor: " +:+ str_of_exn e))
    end
  else
    match cfg_file with
    | Some data =>
        match safe_load_bytes data with
        | Ok v => (or_empty v, None)
        | Raise e => (VDict ∅, Some ("Invalid YAML file: " +:+ str_of_exn e))
        end
    | None => (VDict ∅, None)
    end.
End load_config.

(** ** [process_one] on whatever [load_config] returned

    [load_config] returns what the YAML text holds, which need not be a
    dictionary; [process_one] then runs its tests on that value. *)
Section process_one_value.
Context `{!Steps}.

(** [k in cfg and isinstance(cfg[k], dict)] (or [list]): the section when
    the test holds. *)
Definition config_section {A} (cfg : value) (k : string)
    (as_type : value -> option A) : result (option A) :=
  present ← Processor.contains cfg k;
  if (present : bool) then v ← Processor.getitem cfg k; Ok (as_type v)
  else Ok None.

(** An outcome without a call. *)
Definition lift {A} (r : result A) : traced A := ([], r).

Definition process_one_value (name : string) (data tpl_bytes : bytes)
    (cfg : value) : traced bytes :=
  composed ← invoke Compose (fun d => compose_into_template d tpl_bytes) data;
  section ← lift (config_section cfg "page_setup" as_dict);
  composed ← match section with
             | Some c => invoke PageSetup (fun b => apply_page_setup b c) composed
             | None => mret composed
             end;
  section ← lift (config_section cfg "header_footer" as_dict);
  composed ← match section with
             | Some c => invoke HeaderFooter (fun b => set_header_footer b c) composed
             | None => mret composed
             end;
  section ← lift (config_section cfg "style_map" as_dict);
  composed ← match section with
             | Some c => invoke StyleMap (fun b => apply_style_mappings b c) composed
             | None => mret composed
             end;
  section ← lift (config_section cfg "find_replace" as_list);
  composed ← match section with
             | Some c => invoke FindReplace (fun b => apply_find_replace b c) composed
             | None => mret composed
             end;
  mret composed.
End process_one_value.

End AppRest.


(* ===================================================================== *)
(** * Further notions used to state properties *)
(* ===================================================================== *)

Module SpecRest.
Import ProcessorRest AppRest.

(** A rule find/replace does not skip: a dictionary with a true [pattern],
    or no dictionary at all (which raises). *)
Definition usable_rule (rule : value) : bool :=
  match rule with
  | VDict r => truthy (dict_get r "pattern")
  | _ => true
  end.

(** The margin of a section on a side. *)
Definition margin_of (sd : Processor.Side) (s : Section) : option Z :=
  match sd with
  | Processor.Top => top_margin s
  | Processor.Bottom => bottom_margin s
  | Processor.Left => left_margin s
  | Processor.Right => right_margin s
  end.

(** Two sections with the same orientation, page size and margins. *)
Definition same_geometry (s s' : Section) : Prop :=
  orientation s' = orientation s
  /\ page_width s' = page_width s /\ page_height s' = page_height s
  /\ top_margin s' = top_margin s /\ bottom_margin s' = bottom_margin s
  /\ left_margin s' = left_margin s /\ right_margin s' = right_margin s.

Section margins.
Context `{!Library}.

(** What the configuration asks for a side: nothing when [margins] does not
    mention it, else the length [Mm(float(margins[side]))]. *)
Definition margin_value (margins : value) (sd : Processor.Side)
    : result (option Z) :=
  present ← Processor.contains margins (Processor.side_name sd);
  if (present : bool) then
    v ← Processor.getitem margins (Processor.side_name sd);
    emu ← Mm_float v;
    Ok (Some emu)
  else Ok None.

(** What page setup assigns to the margin on a side: nothing when
    [margins] does not mention the side, else what the attribute holds for
    the length asked for. *)
Definition margin_written (margins : value) (sd : Processor.Side)
    : result (option Z) :=
  m ← margin_value margins sd;
  match m with
  | Some emu => len ← Processor.margin_length sd emu; Ok (Some len)
  | None => Ok None
  end.
End margins.

(** The text put in front of the footer: the footer text, if any, and the
    label of the page number, if asked for. *)
Definition footer_prefix (footer_text : string) (include_page_numbers : bool)
    : string :=
  if include_page_numbers
  then (if bool_decide (footer_text = "") then "" else footer_text +:+ " — ")
       +:+ "Page "
  else footer_text.

(** The placeholder the page field leaves in the text. *)
Definition page_placeholder (include_page_numbers : bool) : string :=
  if include_page_numbers then "1" else "".

(** What one visit of the footer branch does to the first paragraph of a
    footer when the footer text is the string [t]: nothing when there is
    nothing to put in front, else a single run with the prefix, the text
    the paragraph had and the placeholder. *)
Definition footer_step (t : string) (include_page_numbers : bool)
    (p : Paragraph) : Paragraph :=
  if bool_decide (footer_prefix t include_page_numbers = "") then p
  else ProcessorRest.set_text p
         (footer_prefix t include_page_numbers +:+ text p
          +:+ page_placeholder include_page_numbers).

Section fused.
Context `{!Library} `{!StyleLibrary}.

(** A step on documents when the configuration has its section. *)
Definition optional_step {A} (section : option A)
    (f : Document -> A -> result Document) (doc : Document) : result Document :=
  match section with
  | Some c => f doc c
  | None => Ok doc
  end.

(** The pipeline on documents: load template and source once, compose,
    run the configured steps on the document, save once. *)
Definition process_document (data tpl_bytes : bytes) (cfg : gmap string value)
    : result bytes :=
  base ← load tpl_bytes;
  src ← load data;
  doc ← Composer_append base src;
  doc ← optional_step (cfg !! "page_setup" ≫= as_dict)
          Processor.page_setup_document doc;
  doc ← optional_step (cfg !! "header_footer" ≫= as_dict)
          header_footer_document doc;
  doc ← optional_step (cfg !! "style_map" ≫= as_dict)
          (fun d m => Ok (style_mappings_document d m)) doc;
  doc ← optional_step (cfg !! "find_replace" ≫= as_list)
          Processor.find_replace_document doc;
  Ok (save doc).
End fused.

End SpecRest.


(* ===================================================================== *)
(** * Further sample instances *)
(* ===================================================================== *)

Module SampleRest.
Import ProcessorRest AppRest SpecRest.

(** A document with the styles [Normal], [Title], [Heading 1] and
    [Heading 2]; a value that is no string cannot be a paragraph text. *)
#[global] Instance styles : StyleLibrary := {|
  styles_getitem _ v :=
    match v with
    | VStr name =>
        if bool_decide (name ∈ ["Normal"; "Title"; "Heading 1"; "Heading 2"])
        then Ok name
        else Raise (Exception ("no style with name " +:+ name))
    | _ => Raise (Exception "unhashable type")
    end;
  text_of_value _ := Raise (Exception "object is not iterable");
  default_style _ := "Normal"
|}.

Fixpoint lstrip (l : list ascii) : list ascii :=
  match l with
  | c :: l' => if Ascii.is_space c then lstrip l' else l
  | [] => []
  end.

(** A loader that knows three texts: an empty document, a flow sequence
    that is not closed, and a find/replace section without rules; any
    other text is a plain scalar. *)
Definition sample_safe_load (text : string) : result value :=
  if bool_decide (text = "") then Ok VNone
  else if bool_decide (text = "[") then Raise (Exception "expected ']'")
  else if bool_decide (text = "find_replace: []")
  then Ok (VDict {[ "find_replace" := VList [] ]})
  else Ok (VStr text).

#[global] Instance yaml : Yaml := {|
  safe_load := sample_safe_load;
  safe_load_bytes data := sample_safe_load (String.string_of_list_byte data);
  strip text := of_chars (reverse (lstrip (reverse (lstrip (chars text)))))
|}.

(** ** A library that loads back what it saves

    A package is the sequence of the binary digits of the number that
    stdpp's [Countable] assigns to the document. *)

#[local] Instance WD_ORIENT_eq_dec : EqDecision WD_ORIENT.
Proof. solve_decision. Defined.
#[local] Instance Run_eq_dec : EqDecision Run.
Proof. solve_decision. Defined.
#[local] Instance Inline_eq_dec : EqDecision Inline.
Proof. solve_decision. Defined.
#[local] Instance Paragraph_eq_dec : EqDecision Paragraph.
Proof. solve_decision. Defined.
#[local] Instance Section_eq_dec : EqDecision Section.
Proof. solve_decision. Defined.
#[local] Instance Document_eq_dec : EqDecision Document.
Proof. solve_decision. Defined.

#[local] Instance WD_ORIENT_countable : Countable WD_ORIENT.
Proof.
  refine (inj_countable'
            (fun o => match o with PORTRAIT => false | LANDSCAPE => true end)
            (fun b : bool => if b then LANDSCAPE else PORTRAIT) _).
  by intros [].
Defined.

#[local] Instance Run_countable : Countable Run.
Proof.
  refine (inj_countable' (fun r => (run_text r, run_format r))
            (fun x => mkRun x.1 x.2) _).
  by intros [].
Defined.

#[local] Instance Inline_countable : Countable Inline.
Proof.
  refine (inj_countable'
            (fun i => match i with IRun r => inl r | IHyperlink t => inr t end)
            (fun x => match x with inl r => IRun r | inr t => IHyperlink t end) _).
  by intros [].
Defined.

#[local] Instance Paragraph_countable : Countable Paragraph.
Proof.
  refine (inj_countable' (fun p => (style p, content p))
            (fun x => mkParagraph x.1 x.2) _).
  by intros [].
Defined.

#[local] Instance Section_countable : Countable Section.
Proof.
  refine (inj_countable'
            (fun s => (orientation s, page_width s, page_height s,
                       top_margin s, bottom_margin s, left_margin s,
                       right_margin s, header_part s, footer_part s))
            (fun x => match x with
                      | (o, w, h, t, b, l, r, hp, fp) =>
                          mkSection o w h t b l r hp fp
                      end) _).
  by intros [].
Defined.

#[local] Instance Document_countable : Countable Document.
Proof.
  refine (inj_countable' (fun d => (sections d, paragraphs d, parts d))
            (fun x => match x with (s, p, q) => mkDocument s p q end) _).
  by intros [].
Defined.

Fixpoint digits (n : positive) : bytes :=
  match n with
  | xH => []
  | xO n' => Byte.x00 :: digits n'
  | xI n' => Byte.x01 :: digits n'
  end.

Fixpoint number (b : bytes) : option positive :=
  match b with
  | [] => Some xH
  | d :: b' =>
      if Byte.eqb d Byte.x00 then xO <$> number b'
      else if Byte.eqb d Byte.x01 then xI <$> number b'
      else None
  end.

Definition codec_load (b : bytes) : result Document :=
  match number b ≫= decode with
  | Some doc => Ok doc
  | None => Raise (Exception "Package not found")
  end.

Definition codec : Library := {|
  load := codec_load;
  save doc := digits (encode doc);
  Composer_append base src :=
    Ok (mkDocument (sections base) (paragraphs base ++ paragraphs src) (parts base));
  re_sub := Sample.sample_re_sub;
  Mm_float := Sample.sample_Mm_float;
  repr _ := "[...]"
|}.

(** Documents and configurations to run the model on. *)
Definition plain_section (o : WD_ORIENT) (w h : Z) : Section :=
  mkSection o (Some w) (Some h) None None None None None None.

Definition two_runs : Paragraph :=
  mkParagraph "Heading 1"
    [IRun (mkRun "ACME" (Some "bold")); IRun (mkRun " Corp" None)].

Definition footer_only : gmap string value :=
  {[ "footer_text" := VStr "Co"; "include_page_numbers" := VBool true ]}.

End SampleRest.


(* ===================================================================== *)
(** * Properties *)
(* ===================================================================== *)

(** ** The model on the sample instance *)

Example Path_name_samples :
  Path_name "legacy/Report.DOCX" = "Report.DOCX"
  /\ Path_name "a//b/./" = "b"
  /\ Path_name "/" = ""
  /\ lower "Old.ZIP" = "old.zip".
Proof. repeat split; vm_compute; reflexivity. Qed.

Example iter_input_docs_sample :
  iter_input_docs (Some [Sample.letter; Sample.picture; Sample.bundle])
  = Ok Sample.documents.
Proof. vm_compute. reflexivity. Qed.

Example iter_input_docs_bad_zip :
  iter_input_docs (Some [Sample.letter; UploadedFile.mk "x.zip" []])
  = Raise (Exception "File is not a zip file").
Proof. vm_compute. reflexivity. Qed.

Example run_script_sample :
  match run_script Sample.template Sample.full_config
          (Some [Sample.letter; Sample.picture; Sample.bundle]) with
  | Ok (Some zf) => entry_name <$> zf
  | _ => []
  end
  = ["Letter_refit.docx"; "Report_refit.docx"; "broken__ERROR.txt"].
Proof. vm_compute. reflexivity. Qed.

Example run_script_nothing_uploaded :
  run_script Sample.template Sample.full_config None = Ok None.
Proof. vm_compute. reflexivity. Qed.

Example process_one_sample_calls :
  call_step <$> process_one_calls "Letter.docx"
                  (UploadedFile.getvalue Sample.letter)
                  Sample.template Sample.full_config
  = [Compose; PageSetup; HeaderFooter; StyleMap; FindReplace].
Proof. vm_compute. reflexivity. Qed.

Example page_setup_sample :
  Processor.page_setup_document
    (mkDocument
       [mkSection PORTRAIT (Some 210%Z) (Some 297%Z) None None None None None None]
       [] [])
    {[ "orientation" := VStr "landscape";
       "margins_mm" := VDict {[ "top" := VInt 20; "left" := VInt 25 ]} ]}
  = Ok (mkDocument
          [mkSection LANDSCAPE (Some 297%Z) (Some 210%Z)
             (Some 720090%Z) None (Some 899795%Z) None None None]
          [] []).
Proof. vm_compute. reflexivity. Qed.

Example round_float_samples :
  round_float <$> [S754_finite false 1 (-1); S754_finite false 3 (-1);
                   S754_finite true 5 (-1); S754_finite false 11 (-2);
                   S754_zero true]
  = Ok <$> [0; 2; -2; 3; 0]%Z.
Proof. vm_compute. reflexivity. Qed.

Example twips_samples :
  twips <$> [720000; 540000; -317; 318; 14400000000000000000;
             18446744073709551615]%Z
  = Ok <$> [1134; 850; 0; 1; 22677165354330708; 29049990667259136]%Z.
Proof. vm_compute. reflexivity. Qed.

Example page_setup_float_margin :
  Processor.page_setup_section "portrait"
    (VDict {[ "top" := VFloat Sample.inch ]})
    (mkSection PORTRAIT None None None None None None None None)
  = Ok (mkSection PORTRAIT None None (Some 914400%Z) None None None None None).
Proof. vm_compute. reflexivity. Qed.

Example page_setup_margin_out_of_range :
  let s := mkSection PORTRAIT None None None None None None None None in
  is_ok <$> [Processor.page_setup_section "portrait"
               (VDict {[ "right" := VInt (-127) ]}) s;
             Processor.page_setup_section "portrait"
               (VDict {[ "top" := VInt (-127) ]}) s;
             Processor.page_setup_section "portrait"
               (VDict {[ "top" := VInt 59653 ]}) s;
             Processor.page_setup_section "portrait"
               (VDict {[ "top" := VInt 59652 ]}) s;
             Processor.page_setup_section "portrait"
               (VDict {[ "left" := VInt 59653 ]}) s]
  = [false; true; false; true; true].
Proof. vm_compute. reflexivity. Qed.

Example page_setup_margins_not_a_dictionary :
  is_ok (Processor.page_setup_document
           (mkDocument
              [mkSection PORTRAIT (Some 210%Z) (Some 297%Z) None None None None None None]
              [] [])
           {[ "margins_mm" := VStr "top" ]})
  = false.
Proof. vm_compute. reflexivity. Qed.

(** Two sections share one footer; the first has no header, so the library
    creates one (and the footer it lacks) when the loop reaches it. *)
Example find_replace_sample :
  Processor.find_replace_document
    (mkDocument
       [mkSection PORTRAIT None None None None None None None None;
        mkSection PORTRAIT None None None None None None None (Some 0)]
       [mkParagraph "Normal" [IRun (mkRun "AC" (Some "bold")); IRun (mkRun "ME" None)];
        mkParagraph "Normal" [IRun (mkRun "Other" (Some "bold"))]]
       [[mkParagraph "Footer" [IRun (mkRun "ACME" (Some "italic"))]]])
    [VDict {[ "pattern" := VStr "ACME"; "replace" := VStr "X" ]}]
  = Ok (mkDocument
          [mkSection PORTRAIT None None None None None None (Some 1) (Some 2);
           mkSection PORTRAIT None None None None None None None (Some 0)]
          [mkParagraph "Normal" [IRun (mkRun "X" None)];
           mkParagraph "Normal" [IRun (mkRun "Other" (Some "bold"))]]
          [[mkParagraph "Footer" [IRun (mkRun "X" None)]];
           [mkParagraph "Header" []];
           [mkParagraph "Footer" []]]).
Proof. vm_compute. reflexivity. Qed.

(** ** Strings and paths *)

Lemma chars_of_chars l : chars (of_chars l) = l.
Proof. apply String.list_ascii_of_string_of_list_ascii. Qed.

Lemma chars_lower s : chars (lower s) = lower_ascii <$> chars s.
Proof. unfold lower. apply chars_of_chars. Qed.

Lemma endswith_true s suf :
  endswith s suf = true <-> chars suf `suffix_of` chars s.
Proof. unfold endswith. apply bool_decide_eq_true. Qed.

Lemma split_slash_no_slash t :
  "/"%char ∉ t -> split_slash t = [t].
Proof.
  induction t as [|c t IH]; intros Hn; [done|].
  simpl. destruct (Ascii.eqb_spec c "/") as [->|Hc].
  - exfalso. apply Hn. left.
  - rewrite IH; [done|]. intros Hin. apply Hn. by right.
Qed.

(** Text without a separator appended to a path stays in the last piece. *)
Lemma split_slash_app l t :
  "/"%char ∉ t ->
  exists ps p, split_slash l = ps ++ [p] /\ split_slash (l ++ t) = ps ++ [p ++ t].
Proof.
  intros Hn. induction l as [|c l (ps & p & E1 & E2)].
  - exists [], []. split; [done|]. simpl. by apply split_slash_no_slash.
  - simpl. destruct (Ascii.eqb c "/").
    + exists ([] :: ps), p. rewrite E1, E2. done.
    + rewrite E1, E2. destruct ps as [|q ps]; simpl.
      * exists [], (c :: p). done.
      * exists ((c :: q) :: ps), p. done.
Qed.

Lemma last_filter_snoc {A} (P : A -> bool) l x :
  P x = true -> last (List.filter P (l ++ [x])) = Some x.
Proof.
  intros HP. rewrite List.filter_app. simpl. rewrite HP. apply last_snoc.
Qed.

Lemma lower_ascii_slash c :
  lower_ascii c ∈ chars ".docx" -> c ≠ "/"%char.
Proof.
  intros Hin ->. revert Hin.
  apply (bool_decide_unpack (lower_ascii "/" ∉ chars ".docx")).
  vm_compute. exact I.
Qed.

(** The base name of a path that ends in [.docx] ends in [.docx]. *)
Lemma Path_name_keeps_docx s :
  endswith (lower s) ".docx" = true ->
  endswith (lower (Path_name s)) ".docx" = true.
Proof.
  rewrite !endswith_true, !chars_lower. intros [k0 Hk].
  apply fmap_app_inv in Hk as (l1 & l2 & -> & Hl2 & Hs).
  assert (Hn : "/"%char ∉ l2).
  { intros Hin. apply (lower_ascii_slash "/"); [|done].
    rewrite Hl2. apply (list_elem_of_fmap_2 lower_ascii) in Hin. exact Hin. }
  destruct (split_slash_app l1 l2 Hn) as (ps & p & _ & E).
  unfold Path_name, path_parts. rewrite Hs, E.
  rewrite last_filter_snoc.
  - rewrite chars_of_chars, fmap_app, <- Hl2. by apply suffix_app_r.
  - assert (Hlen : length l2 = 5) by (by rewrite <- (length_fmap lower_ascii), <- Hl2).
    unfold is_part.
    rewrite !bool_decide_eq_false_2; [done| |];
      intros Heq; apply (f_equal length) in Heq;
      rewrite length_app, Hlen in Heq; simpl in Heq; lia.
Qed.

(** ** Loops that may raise *)

Lemma mapM_result_cons {A B} (f : A -> result B) x l :
  mapM f (x :: l) = y ← f x; k ← mapM f l; Ok (y :: k).
Proof. reflexivity. Qed.

Lemma mapM_result_Ok {A B} (f : A -> result B) l k :
  mapM f l = Ok k <-> Forall2 (fun x y => f x = Ok y) l k.
Proof.
  revert k. induction l as [|x l IH]; intros k.
  - split.
    + intros [= <-]. constructor.
    + by inversion 1.
  - rewrite mapM_result_cons. split.
    + destruct (f x) as [y|e] eqn:Ef; [|done]. cbn [mbind result_bind].
      destruct (mapM f l) as [k'|e] eqn:El; [|done].
      intros [= <-]. constructor; [done|]. by apply IH.
    + inversion 1 as [|? y ? k' Ef Hl]; subst. rewrite Ef. cbn [mbind result_bind].
      apply IH in Hl. by rewrite Hl.
Qed.

(** ** Expanding the uploads *)

Section uploads.
Context `{!Runtime}.

Lemma zip_members_contribution infolist results :
  zip_members infolist results
  = (fun l => results ++ concat l) <$> mapM member_contribution infolist.
Proof.
  revert results. induction infolist as [|zi infolist IH]; intros results.
  - simpl. by rewrite app_nil_r.
  - rewrite mapM_result_cons. simpl zip_members.
    set (rest := mapM member_contribution infolist) in *.
    unfold member_contribution.
    destruct (negb (ZipInfo.is_dir zi) && endswith (lower (ZipInfo.filename zi)) ".docx").
    + destruct (ZipInfo.read zi) as [data|e]; [|reflexivity].
      cbn [mbind result_bind]. rewrite IH.
      destruct rest; [|reflexivity].
      cbn. by rewrite <- app_assoc.
    + cbn [mbind result_bind]. rewrite IH. by destruct rest.
Qed.

Lemma iter_items_contribution items results :
  iter_items items results
  = (fun l => results ++ concat l) <$> mapM contribution items.
Proof.
  revert results. induction items as [|item items IH]; intros results.
  - simpl. by rewrite app_nil_r.
  - rewrite mapM_result_cons. simpl iter_items.
    set (rest := mapM contribution items) in *.
    unfold contribution.
    destruct (endswith (lower (UploadedFile.name item)) ".docx").
    + cbn [mbind result_bind]. rewrite IH.
      destruct rest; [|reflexivity].
      cbn. by rewrite <- app_assoc.
    + destruct (endswith (lower (UploadedFile.name item)) ".zip").
      * destruct (ZipFile (UploadedFile.getvalue item)) as [infolist|e]; [|reflexivity].
        cbn [mbind result_bind]. rewrite zip_members_contribution.
        destruct (mapM member_contribution infolist) as [ms|e]; [|reflexivity].
        cbn [fmap result_fmap mbind result_bind]. rewrite IH.
        destruct rest; [|reflexivity].
        cbn. by rewrite <- app_assoc.
      * cbn [mbind result_bind]. rewrite IH. by destruct rest.
Qed.

Lemma iter_input_docs_expanded files :
  iter_input_docs files = expanded (default [] files).
Proof.
  unfold iter_input_docs, expanded. rewrite iter_items_contribution.
  by destruct (mapM contribution (default [] files)).
Qed.

Lemma member_contribution_docx zi l :
  member_contribution zi = Ok l -> Forall docx_name l.
Proof.
  unfold member_contribution.
  destruct (negb (ZipInfo.is_dir zi)); simpl; [|by intros [= <-]].
  destruct (endswith (lower (ZipInfo.filename zi)) ".docx") eqn:E; [|by intros [= <-]].
  destruct (ZipInfo.read zi) as [data|e]; [|done].
  intros [= <-]. repeat constructor. by apply Path_name_keeps_docx.
Qed.

Lemma Forall_concat_results {A B} (f : A -> result (list B)) (P : B -> Prop) l k :
  (forall x r, f x = Ok r -> Forall P r) ->
  mapM f l = Ok k -> Forall P (concat k).
Proof.
  intros Hf Hm. apply mapM_result_Ok in Hm.
  induction Hm as [|x r l k Hx _ IH]; simpl; [constructor|].
  apply Forall_app. eauto.
Qed.

Lemma contribution_docx item l :
  contribution item = Ok l -> Forall docx_name l.
Proof.
  unfold contribution.
  destruct (endswith (lower (UploadedFile.name item)) ".docx") eqn:E.
  { intros [= <-]. by repeat constructor. }
  destruct (endswith (lower (UploadedFile.name item)) ".zip"); [|by intros [= <-]].
  destruct (ZipFile (UploadedFile.getvalue item)) as [infolist|e]; [|done].
  cbn [mbind result_bind].
  destruct (mapM member_contribution infolist) as [ms|e] eqn:Em; [|done].
  intros [= <-]. eapply Forall_concat_results; [|exact Em].
  apply member_contribution_docx.
Qed.
End uploads.

(** C10: every (filename, bytes) pair that [iter_input_docs] returns has a
    file name that ends in [.docx] when compared without regard to case.
    The pairs are the contributions of the uploads in order: an uploaded
    [.docx] file itself, for an uploaded [.zip] its members that are no
    directory and end in [.docx], each under the base name of its path, and
    nothing for any other upload or member (a zip inside a zip included). *)
Theorem C10_iter_input_docs_only_docx `{!Runtime}
    (files : option (list UploadedFile.t)) (docs : list (string * bytes)) :
  iter_input_docs files = Ok docs ->
  expanded (default [] files) = Ok docs /\ Forall docx_name docs.
Proof.
  rewrite iter_input_docs_expanded. intros Hd. split; [done|].
  unfold expanded in Hd.
  destruct (mapM contribution (default [] files)) as [k|e] eqn:Em; [|done].
  injection Hd as <-. eapply Forall_concat_results; [|exact Em].
  apply contribution_docx.
Qed.

Lemma C10_iter_input_docs_only_docx_witness :
  expanded [Sample.letter; Sample.picture; Sample.bundle] = Ok Sample.documents
  /\ Forall docx_name Sample.documents.
Proof.
  apply (C10_iter_input_docs_only_docx
           (Some [Sample.letter; Sample.picture; Sample.bundle])).
  vm_compute. reflexivity.
Defined.

(** ** The batch loop *)

Section batch.
Context `{!Runtime} `{!Steps}.
Variable tpl_bytes : bytes.
Variable cfg : gmap string value.

Lemma process_doc_entry zf doc :
  process_doc tpl_bytes cfg zf doc = zf ++ [entry_for tpl_bytes cfg doc].
Proof.
  destruct doc as [name data]. unfold process_doc, entry_for, writestr. simpl.
  by destruct (process_one_result name data tpl_bytes cfg).
Qed.

(** The loop adds the entries of the documents, in order, to the archive. *)
Lemma process_docs_entries docs zf :
  process_docs tpl_bytes cfg docs zf = zf ++ (entry_for tpl_bytes cfg <$> docs).
Proof.
  revert zf. induction docs as [|doc docs IH]; intros zf; simpl.
  - by rewrite app_nil_r.
  - rewrite IH, process_doc_entry, <- app_assoc. done.
Qed.

Lemma process_docs_archive docs :
  process_docs tpl_bytes cfg docs [] = entry_for tpl_bytes cfg <$> docs.
Proof. by rewrite process_docs_entries. Qed.
End batch.

(** C3: documents are processed, and their entries written to the output
    archive, in upload order.  The expanded input list is the concatenation
    of what the uploads contribute, upload by upload (a [.docx] itself, a
    [.zip] its [.docx] members in archive order), and the archive is the
    list of the entries of the documents of that list: its i-th entry is the
    entry of the i-th document. *)
Theorem C3_entries_in_upload_order `{!Runtime} `{!Steps}
    (tpl_bytes : bytes) (cfg : gmap string value)
    (files : option (list UploadedFile.t)) :
  run_script tpl_bytes cfg files
  = (docs ← expanded (default [] files);
     Ok (if bool_decide (docs = []) then None
         else Some (entry_for tpl_bytes cfg <$> docs)))
  /\ forall (docs : list (string * bytes)) (i : nat),
       process_docs tpl_bytes cfg docs [] !! i
       = entry_for tpl_bytes cfg <$> docs !! i.
Proof.
  split.
  - unfold run_script, run_all. rewrite iter_input_docs_expanded.
    destruct (expanded (default [] files)) as [docs|e]; [|done].
    cbn [mbind result_bind]. by rewrite process_docs_archive.
  - intros docs i. by rewrite process_docs_archive, list_lookup_fmap.
Qed.

(** C2: a document whose processing raises does not abort the batch.  The
    archive has exactly one entry per input document, at the position of the
    document: [<stem>_refit.docx] with the processed bytes when processing
    returned, [<stem>__ERROR.txt] with the message when it raised; and the
    documents after a failing one leave the entries they leave when
    processed on their own. *)
Theorem C2_batch_survives_failures `{!Runtime} `{!Steps}
    (tpl_bytes : bytes) (cfg : gmap string value) (docs : list (string * bytes)) :
  length (process_docs tpl_bytes cfg docs []) = length docs
  /\ (forall i name data,
        docs !! i = Some (name, data) ->
        match process_one_result name data tpl_bytes cfg with
        | Ok out_bytes =>
            process_docs tpl_bytes cfg docs [] !! i
            = Some (mkEntry (Path_stem name +:+ "_refit.docx") out_bytes)
        | Raise e =>
            process_docs tpl_bytes cfg docs [] !! i
            = Some (mkEntry (Path_stem name +:+ "__ERROR.txt")
                      (encode_utf8 ("Failed to process " +:+ name +:+ ": "
                                    +:+ str_of_exn e)))
        end)
  /\ (forall before name data after e,
        docs = before ++ (name, data) :: after ->
        process_one_result name data tpl_bytes cfg = Raise e ->
        process_docs tpl_bytes cfg docs []
        = process_docs tpl_bytes cfg before []
          ++ [mkEntry (Path_stem name +:+ "__ERROR.txt")
                (encode_utf8 ("Failed to process " +:+ name +:+ ": "
                              +:+ str_of_exn e))]
          ++ process_docs tpl_bytes cfg after []).
Proof.
  split; [|split].
  - by rewrite process_docs_archive, length_fmap.
  - intros i name data Hi.
    rewrite process_docs_archive, list_lookup_fmap, Hi. simpl.
    unfold entry_for. simpl.
    by destruct (process_one_result name data tpl_bytes cfg).
  - intros before name data after e -> He.
    rewrite !process_docs_archive, fmap_app, fmap_cons.
    unfold entry_for at 2. simpl. by rewrite He.
Qed.

Lemma C2_batch_survives_failures_witness :
  process_one_result "broken.docx" [] Sample.template Sample.full_config
  = Raise (Exception "Package not found")
  /\ process_docs Sample.template Sample.full_config
       ([("Letter.docx", UploadedFile.getvalue Sample.letter)]
        ++ ("broken.docx", []) :: Sample.documents) []
     = process_docs Sample.template Sample.full_config
         [("Letter.docx", UploadedFile.getvalue Sample.letter)] []
       ++ [mkEntry (Path_stem "broken.docx" +:+ "__ERROR.txt")
             (encode_utf8 ("Failed to process " +:+ "broken.docx" +:+ ": "
                           +:+ str_of_exn (Exception "Package not found")))]
       ++ process_docs Sample.template Sample.full_config Sample.documents [].
Proof.
  split; [vm_compute; reflexivity|].
  apply (proj2 (proj2 (C2_batch_survives_failures Sample.template
                         Sample.full_config
                         ([("Letter.docx", UploadedFile.getvalue Sample.letter)]
                          ++ ("broken.docx", []) :: Sample.documents)))
           [("Letter.docx", UploadedFile.getvalue Sample.letter)]
           "broken.docx" [] Sample.documents (Exception "Package not found"));
    [reflexivity | vm_compute; reflexivity].
Defined.

(** ** The pipeline of [process_one] *)

Section pipeline.
Context `{!Steps}.

Lemma invoke_bind {A} st f b (k : bytes -> traced A) :
  (invoke st f b ≫= k)
  = match f b with
    | Ok b' => (mkCall st b (Ok b') :: (k b').1, (k b').2)
    | Raise e => ([mkCall st b (Raise e)], Raise e)
    end.
Proof.
  unfold invoke. cbn. destruct (f b) as [b'|e]; [|done].
  by destruct (k b').
Qed.

Lemma traced_ret_bind {A B} (a : A) (k : A -> traced B) : (mret a ≫= k) = k a.
Proof. cbn. by destruct (k a). Qed.

Lemma run_steps_cons tpl cfg st steps b :
  run_steps tpl cfg (st :: steps) b
  = match step_function tpl cfg st b with
    | Ok b' => (mkCall st b (Ok b') :: (run_steps tpl cfg steps b').1,
                (run_steps tpl cfg steps b').2)
    | Raise e => ([mkCall st b (Raise e)], Raise e)
    end.
Proof. simpl. apply invoke_bind. Qed.

Lemma filter_sublist {A} (f : A -> bool) l : List.filter f l `sublist_of` l.
Proof.
  induction l as [|x l IH]; simpl; [constructor|].
  destruct (f x); by constructor.
Qed.

Lemma log_cons_eq {A} (c : Call) (x y : traced A) :
  x = y -> (c :: x.1, x.2) = (c :: y.1, y.2).
Proof. by intros ->. Qed.

Lemma process_one_run_steps name data tpl cfg :
  process_one name data tpl cfg
  = run_steps tpl cfg (List.filter (configured cfg) fixed_order) data.
Proof.
  unfold process_one, fixed_order. simpl List.filter.
  unfold configured, has_dict, has_list.
  destruct (cfg !! "page_setup" ≫= as_dict) as [c1|] eqn:E1;
  destruct (cfg !! "header_footer" ≫= as_dict) as [c2|] eqn:E2;
  destruct (cfg !! "style_map" ≫= as_dict) as [c3|] eqn:E3;
  destruct (cfg !! "find_replace" ≫= as_list) as [c4|] eqn:E4;
  repeat first
    [ rewrite traced_ret_bind
    | rewrite invoke_bind, run_steps_cons; cbn [step_function];
      rewrite ?E1, ?E2, ?E3, ?E4;
      match goal with
      | |- context [match ?r with Ok _ => _ | Raise _ => _ end] =>
          destruct r; [apply log_cons_eq | reflexivity]
      end ];
  reflexivity.
Qed.

Lemma run_steps_chained tpl cfg steps b :
  chained b (run_steps tpl cfg steps b).1 (run_steps tpl cfg steps b).2.
Proof.
  revert b. induction steps as [|st steps IH]; intros b; [done|].
  rewrite run_steps_cons.
  destruct (step_function tpl cfg st b) as [b'|e] eqn:E; simpl; rewrite ?E; auto.
Qed.

Lemma run_steps_prefix tpl cfg steps b :
  call_step <$> (run_steps tpl cfg steps b).1 `prefix_of` steps.
Proof.
  revert b. induction steps as [|st steps IH]; intros b; [done|].
  rewrite run_steps_cons.
  destruct (step_function tpl cfg st b) as [b'|e]; simpl.
  - by apply prefix_cons.
  - apply prefix_cons, prefix_nil.
Qed.

Lemma run_steps_outputs tpl cfg steps b :
  Forall (fun c => call_output c = step_function tpl cfg (call_step c) (call_input c))
         (run_steps tpl cfg steps b).1.
Proof.
  revert b. induction steps as [|st steps IH]; intros b; [constructor|].
  rewrite run_steps_cons.
  destruct (step_function tpl cfg st b) as [b'|e] eqn:E; simpl;
    repeat constructor; simpl; auto.
Qed.

Lemma run_steps_ok tpl cfg steps b :
  is_ok (run_steps tpl cfg steps b).2 = true ->
  call_step <$> (run_steps tpl cfg steps b).1 = steps.
Proof.
  revert b. induction steps as [|st steps IH]; intros b; [done|].
  rewrite run_steps_cons.
  destruct (step_function tpl cfg st b) as [b'|e]; simpl; [|done].
  intros Hok. by rewrite IH.
Qed.

Lemma configured_steps_head cfg :
  exists steps, List.filter (configured cfg) fixed_order = Compose :: steps.
Proof. simpl. eauto. Qed.

Lemma process_one_first_call name data tpl cfg :
  exists log,
    process_one_calls name data tpl cfg
    = mkCall Compose data (compose_into_template data tpl) :: log.
Proof.
  unfold process_one_calls. rewrite process_one_run_steps.
  destruct (configured_steps_head cfg) as [steps ->].
  rewrite run_steps_cons. simpl.
  destruct (compose_into_template data tpl); simpl; eauto.
Qed.

Lemma process_one_steps_prefix name data tpl cfg :
  call_step <$> process_one_calls name data tpl cfg
  `prefix_of` List.filter (configured cfg) fixed_order.
Proof.
  unfold process_one_calls. rewrite process_one_run_steps.
  apply run_steps_prefix.
Qed.

Lemma process_one_steps_sublist name data tpl cfg :
  call_step <$> process_one_calls name data tpl cfg `sublist_of` fixed_order.
Proof.
  destruct (process_one_steps_prefix name data tpl cfg) as [k Hk].
  etrans; [|apply (filter_sublist (configured cfg))].
  rewrite Hk. by apply sublist_inserts_r.
Qed.

Lemma process_one_steps_configured name data tpl cfg st :
  st ∈ call_step <$> process_one_calls name data tpl cfg ->
  configured cfg st = true.
Proof.
  intros Hin.
  destruct (process_one_steps_prefix name data tpl cfg) as [k Hk].
  assert (Hst : st ∈ List.filter (configured cfg) fixed_order).
  { rewrite Hk. apply elem_of_app. by left. }
  apply list_elem_of_In, List.filter_In in Hst. tauto.
Qed.
End pipeline.

(** C1: [process_one] applies the steps in one fixed order: compose the
    legacy content into the template, set the page geometry, set the
    header/footer, apply the style mappings, apply the find/replace rules.
    It runs the configured ones among them in that order; the first call is
    the composition of the input document, every later call receives the
    bytes the call before it produced, and the outcome is the one of the
    last call. *)
Theorem C1_steps_in_fixed_order `{!Steps}
    (name : string) (data tpl_bytes : bytes) (cfg : gmap string value) :
  process_one name data tpl_bytes cfg
  = run_steps tpl_bytes cfg (List.filter (configured cfg) fixed_order) data
  /\ call_step <$> process_one_calls name data tpl_bytes cfg `sublist_of` fixed_order
  /\ (exists log,
        process_one_calls name data tpl_bytes cfg
        = mkCall Compose data (compose_into_template data tpl_bytes) :: log)
  /\ chained data (process_one_calls name data tpl_bytes cfg)
       (process_one_result name data tpl_bytes cfg)
  /\ Forall (fun c => call_output c
                      = step_function tpl_bytes cfg (call_step c) (call_input c))
       (process_one_calls name data tpl_bytes cfg)
  /\ (is_ok (process_one_result name data tpl_bytes cfg) = true ->
      call_step <$> process_one_calls name data tpl_bytes cfg
      = List.filter (configured cfg) fixed_order).
Proof.
  split; [apply process_one_run_steps|].
  split; [apply process_one_steps_sublist|].
  split; [apply process_one_first_call|].
  unfold process_one_calls, process_one_result. rewrite process_one_run_steps.
  split; [apply run_steps_chained|].
  split; [apply run_steps_outputs|].
  apply run_steps_ok.
Qed.

Lemma C1_steps_in_fixed_order_witness :
  call_step <$> process_one_calls "Letter.docx"
                  (UploadedFile.getvalue Sample.letter)
                  Sample.template Sample.full_config
  = List.filter (configured Sample.full_config) fixed_order.
Proof.
  destruct (C1_steps_in_fixed_order "Letter.docx"
              (UploadedFile.getvalue Sample.letter)
              Sample.template Sample.full_config)
    as (_ & _ & _ & _ & _ & Hok).
  apply Hok. vm_compute. reflexivity.
Defined.

(** C5: the text/style transformations are optional.  With a configuration
    that has no [style_map] dictionary and no [find_replace] list,
    [process_one] is the run of the compose, page-setup and header/footer
    steps alone; and whatever the configuration, a step whose key is absent
    or holds a value of another type is never called. *)
Theorem C5_transformations_optional `{!Steps}
    (name : string) (data tpl_bytes : bytes) (cfg : gmap string value) :
  (has_dict cfg "style_map" = false ->
   has_list cfg "find_replace" = false ->
   process_one name data tpl_bytes cfg = layout_only data tpl_bytes cfg)
  /\ (forall st,
        configured cfg st = false ->
        st ∉ call_step <$> process_one_calls name data tpl_bytes cfg).
Proof.
  split.
  - intros Hs Hf. rewrite process_one_run_steps. unfold layout_only, fixed_order.
    simpl. by rewrite Hs, Hf.
  - intros st Hst Hin. apply process_one_steps_configured in Hin. congruence.
Qed.

Lemma C5_transformations_optional_witness :
  let cfg : gmap string value :=
    {[ "page_setup" := VDict {[ "orientation" := VStr "landscape" ]};
       "find_replace" := VStr "ACME" ]} in
  process_one "Letter.docx" (UploadedFile.getvalue Sample.letter) Sample.template cfg
  = layout_only (UploadedFile.getvalue Sample.letter) Sample.template cfg.
Proof.
  intros cfg.
  apply (proj1 (C5_transformations_optional "Letter.docx"
                  (UploadedFile.getvalue Sample.letter) Sample.template cfg));
    vm_compute; reflexivity.
Defined.

(** C6, as the code has it: for each document the pipeline calls into the
    document library between one and five times.  The composition is always
    called; setting the page geometry, setting the header/footer, mapping
    styles and find/replace are each called at most once, and only when the
    configuration asks for them; when no call raises, the calls are those of
    the configured steps, so five with a full configuration. *)
Theorem C6_one_to_five_calls `{!Steps}
    (name : string) (data tpl_bytes : bytes) (cfg : gmap string value) :
  1 <= length (process_one_calls name data tpl_bytes cfg) <= 5
  /\ NoDup (call_step <$> process_one_calls name data tpl_bytes cfg)
  /\ Compose ∈ call_step <$> process_one_calls name data tpl_bytes cfg
  /\ (forall st,
        st ∈ call_step <$> process_one_calls name data tpl_bytes cfg ->
        configured cfg st = true)
  /\ (is_ok (process_one_result name data tpl_bytes cfg) = true ->
      length (process_one_calls name data tpl_bytes cfg)
      = length (List.filter (configured cfg) fixed_order)).
Proof.
  pose proof (process_one_steps_sublist name data tpl_bytes cfg) as Hsub.
  destruct (process_one_first_call name data tpl_bytes cfg) as [log Hlog].
  split; [|split; [|split; [|split]]].
  - apply sublist_length in Hsub. rewrite length_fmap in Hsub.
    rewrite Hlog in *. simpl in *. lia.
  - eapply sublist_NoDup; [|exact Hsub].
    apply (bool_decide_unpack (NoDup fixed_order)). vm_compute. exact I.
  - rewrite Hlog. simpl. left.
  - apply process_one_steps_configured.
  - intros Hok. unfold process_one_calls, process_one_result in *.
    rewrite process_one_run_steps in *.
    apply run_steps_ok in Hok. by rewrite <- Hok at 2; rewrite length_fmap.
Qed.

Lemma C6_one_to_five_calls_witness :
  length (process_one_calls "Letter.docx" (UploadedFile.getvalue Sample.letter)
            Sample.template Sample.full_config)
  = length (List.filter (configured Sample.full_config) fixed_order).
Proof.
  destruct (C6_one_to_five_calls "Letter.docx"
              (UploadedFile.getvalue Sample.letter)
              Sample.template Sample.full_config)
    as (_ & _ & _ & _ & Hok).
  apply Hok. vm_compute. reflexivity.
Defined.

(** C6 as stated fails: with a full configuration [process_one] makes five
    calls, with an empty one a single call; in neither case four. *)
Lemma C6_exactly_four_calls_counterexample :
  length (process_one_calls "Letter.docx" (UploadedFile.getvalue Sample.letter)
            Sample.template Sample.full_config) = 5
  /\ length (process_one_calls "Letter.docx" (UploadedFile.getvalue Sample.letter)
               Sample.template ∅) = 1.
Proof. split; vm_compute; reflexivity. Qed.

(** ** Find/replace on paragraphs *)

Lemma without_runs_no_runs c : runs_of c = [] -> without_runs c = c.
Proof.
  induction c as [|[r|t] c IH]; simpl; [done|done|].
  intros Hc. by rewrite IH.
Qed.

Lemma without_runs_remove_first c :
  without_runs (remove_first_run c) = without_runs c.
Proof. induction c as [|[r|t] c IH]; simpl; [done|done|]. by rewrite IH. Qed.

Lemma runs_of_remove_first c :
  runs_of (remove_first_run c) = tail (runs_of c).
Proof. induction c as [|[r|t] c IH]; simpl; done. Qed.

Lemma remove_all_runs n c :
  length (runs_of c) = n -> Nat.iter n remove_first_run c = without_runs c.
Proof.
  revert c. induction n as [|n IH]; intros c Hn.
  - simpl. symmetry. apply without_runs_no_runs. by apply nil_length_inv.
  - rewrite Nat.iter_succ_r, IH; [apply without_runs_remove_first|].
    rewrite runs_of_remove_first. destruct (runs_of c); simpl in *; lia.
Qed.

Lemma without_runs_app c1 c2 :
  without_runs (c1 ++ c2) = without_runs c1 ++ without_runs c2.
Proof. apply List.filter_app. Qed.

Lemma without_runs_idemp c : without_runs (without_runs c) = without_runs c.
Proof. induction c as [|[r|t] c IH]; simpl; [done|done|]. by rewrite IH. Qed.

Lemma single_run_single_run p t t' :
  single_run (single_run p t) t' = single_run p t'.
Proof.
  unfold single_run. simpl.
  by rewrite without_runs_app, without_runs_idemp, app_nil_r.
Qed.


#[local] Instance untouched_or_single_run_refl : Reflexive untouched_or_single_run.
Proof. intros p. by left. Qed.

#[local] Instance untouched_or_single_run_trans : Transitive untouched_or_single_run.
Proof.
  intros p1 p2 p3 [->|[t ->]] [->|[t' ->]].
  - by left.
  - right. eauto.
  - right. eauto.
  - right. exists t'. apply single_run_single_run.
Qed.

Section find_replace.
Context `{!Library}.

Lemma clear_runs_add_run p t :
  add_run (Processor.clear_runs p) t = single_run p t.
Proof.
  unfold add_run, Processor.clear_runs, single_run. simpl.
  by rewrite remove_all_runs.
Qed.

Lemma replace_in_paragraph_single_run p pattern repl :
  Processor.replace_in_paragraph p pattern repl
  = new_text ← re_sub pattern repl (Processor.source_text p);
    Ok (if bool_decide (new_text ≠ Processor.source_text p)
        then single_run p new_text else p).
Proof.
  unfold Processor.replace_in_paragraph.
  destruct (re_sub pattern repl (Processor.source_text p)) as [t|e]; [|done].
  cbn [mbind result_bind]. rewrite clear_runs_add_run. by case_bool_decide.
Qed.


Lemma apply_rule_edits p rule p' :
  Processor.apply_rule p rule = Ok p' -> untouched_or_single_run p p'.
Proof.
  destruct rule as [| | | | | |r]; try done. simpl.
  destruct (truthy (dict_get r "pattern")); [|intros [= <-]; by left].
  rewrite replace_in_paragraph_single_run.
  destruct (re_sub _ _ _) as [t|e]; [|done]. cbn [mbind result_bind].
  case_bool_decide; intros [= <-]; [right; eauto|by left].
Qed.


Lemma apply_rules_edits p rules p' :
  Processor.apply_rules p rules = Ok p' -> untouched_or_single_run p p'.
Proof.
  revert p. induction rules as [|rule rules IH]; intros p; simpl.
  - intros [= <-]. done.
  - destruct (Processor.apply_rule p rule) as [p1|e] eqn:E; [|done].
    cbn [mbind result_bind]. intros Hr.
    etrans; [by eapply apply_rule_edits|by apply IH].
Qed.
End find_replace.

#[local] Instance parts_edited_refl : Reflexive parts_edited.
Proof. intros ps. exists []. split; [constructor|]. by rewrite app_nil_r. Qed.

#[local] Instance parts_edited_trans : Transitive parts_edited.
Proof.
  intros ps ps1 ps2 (a1 & Ha1 & H1) (a2 & Ha2 & H2).
  exists (a1 ++ a2). split; [by apply Forall_app|].
  rewrite app_assoc. etrans; [|exact H2].
  apply Forall2_app; [exact H1|done].
Qed.

Lemma parts_edited_new k ps : parts_edited ps (ps ++ [new_part k]).
Proof.
  exists [new_part k]. split; [|done].
  constructor; [destruct k; auto|constructor].
Qed.


#[local] Instance find_replace_frame_refl : Reflexive find_replace_frame.
Proof. intros doc. by repeat split. Qed.

#[local] Instance find_replace_frame_trans : Transitive find_replace_frame.
Proof.
  intros d1 d2 d3 (Hp1 & Hs1 & He1) (Hp2 & Hs2 & He2).
  repeat split; [congruence|congruence|by etrans].
Qed.

Lemma get_or_add_definition_frame k doc i :
  find_replace_frame doc (get_or_add_definition k doc i).1.
Proof.
  induction i as [|i IH]; simpl.
  - destruct (sections doc !! 0) as [s|]; [|done].
    destruct (part_ref k s); [done|]. simpl.
    repeat split; simpl; [by rewrite length_insert|apply parts_edited_new].
  - destruct (sections doc !! S i) as [s|]; [|done].
    destruct (part_ref k s); [done|]. exact IH.
Qed.

Section find_replace_document.
Context `{!Library}.

Lemma replace_in_part_frame rules doc r doc' :
  Processor.replace_in_part rules doc r = Ok doc' -> find_replace_frame doc doc'.
Proof.
  unfold Processor.replace_in_part.
  destruct (parts doc !! r) as [ps|] eqn:Er; [|by intros [= <-]].
  destruct (mapM _ ps) as [ps'|e] eqn:Em; [|done].
  intros [= <-]. repeat split; simpl.
  exists []. split; [constructor|]. rewrite app_nil_r.
  rewrite <- (list_insert_id (parts doc) r ps) at 1 by done.
  apply Forall2_insert; [done|].
  apply mapM_result_Ok in Em.
  eapply Forall2_impl; [exact Em|]. intros p p'. apply apply_rules_edits.
Qed.

Lemma replace_in_section_frame rules doc i doc' :
  Processor.replace_in_section rules doc i = Ok doc' -> find_replace_frame doc doc'.
Proof.
  unfold Processor.replace_in_section.
  pose proof (get_or_add_definition_frame Header doc i) as H1.
  destruct (get_or_add_definition Header doc i) as [d1 r1]. simpl in H1.
  destruct (Processor.replace_in_part rules d1 r1) as [d2|e] eqn:E2; [|done].
  cbn [mbind result_bind].
  pose proof (get_or_add_definition_frame Footer d2 i) as H3.
  destruct (get_or_add_definition Footer d2 i) as [d3 r3]. simpl in H3.
  intros E4. apply replace_in_part_frame in E2, E4.
  etrans; [exact H1|]. etrans; [exact E2|]. by etrans.
Qed.

Lemma replace_in_sections_frame rules idx doc doc' :
  Processor.replace_in_sections rules doc idx = Ok doc' -> find_replace_frame doc doc'.
Proof.
  revert doc. induction idx as [|i idx IH]; intros doc; simpl.
  - by intros [= <-].
  - destruct (Processor.replace_in_section rules doc i) as [d1|e] eqn:E; [|done].
    cbn [mbind result_bind]. intros Hr.
    etrans; [by eapply replace_in_section_frame|by apply IH].
Qed.

Lemma find_replace_document_paragraphs doc rules doc' :
  Processor.find_replace_document doc rules = Ok doc' ->
  Forall2 (fun p p' => Processor.apply_rules p rules = Ok p')
    (paragraphs doc) (paragraphs doc')
  /\ parts_edited (parts doc) (parts doc').
Proof.
  unfold Processor.find_replace_document.
  destruct (mapM _ (paragraphs doc)) as [ps|e] eqn:Em; [|done].
  cbn [mbind result_bind]. intros Hr.
  apply replace_in_sections_frame in Hr as (Hp & _ & He). simpl in *.
  rewrite Hp. split; [by apply mapM_result_Ok|done].
Qed.

End find_replace_document.

(** ** Paragraphs no rule changes *)


Section kept.
Context `{!Library}.









End kept.

(** ** Page setup *)

Section page_setup.
Context `{!Library}.







End page_setup.







Import ProcessorRest AppRest SpecRest.

(* ===================================================================== *)
(** * Further properties of the code *)
(* ===================================================================== *)

(** ** Uploads *)

Lemma mapM_result_app {A B} (f : A -> result B) l1 l2 :
  mapM f (l1 ++ l2) = k1 ← mapM f l1; k2 ← mapM f l2; Ok (k1 ++ k2).
Proof.
  induction l1 as [|x l1 IH]; simpl.
  - by destruct (mapM f l2).
  - destruct (f x) as [y|e]; [|done]. cbn [mbind result_bind].
    change (mapM f (l1 ++ l2)) with (mapM f (l1 ++ l2)).
    rewrite IH. destruct (mapM f l1) as [k1|e]; [|done].
    cbn [mbind result_bind]. by destruct (mapM f l2).
Qed.

Lemma chars_app s1 s2 : chars (s1 +:+ s2) = chars s1 ++ chars s2.
Proof. induction s1 as [|c s1 IH]; simpl; [done|]. by rewrite IH. Qed.

Lemma of_chars_chars s : of_chars (chars s) = s.
Proof. apply String.string_of_list_ascii_of_string. Qed.

Lemma endswith_app s suf : endswith (s +:+ suf) suf = true.
Proof. apply endswith_true. rewrite chars_app. by apply suffix_app_r. Qed.

Lemma lower_app s1 s2 : lower (s1 +:+ s2) = lower s1 +:+ lower s2.
Proof.
  rewrite <- (of_chars_chars (lower s1 +:+ lower s2)).
  unfold lower at 1. f_equal.
  by rewrite !chars_app, !chars_lower, fmap_app.
Qed.

Lemma split_slash_nonempty l : split_slash l ≠ [].
Proof.
  destruct l as [|c l]; simpl; [done|].
  destruct (Ascii.eqb c "/"); [done|]. by destruct (split_slash l).
Qed.

Lemma split_slash_snoc_slash l :
  split_slash (l ++ ["/"%char]) = split_slash l ++ [[]].
Proof.
  induction l as [|c l IH]; [reflexivity|].
  simpl. rewrite IH. destruct (Ascii.eqb c "/"); [done|].
  pose proof (split_slash_nonempty l). by destruct (split_slash l).
Qed.

(** The base name of [dir/n] is [n]. *)
Lemma Path_name_in_folder dir n :
  "/"%char ∉ chars n -> is_part (chars n) = true ->
  Path_name (dir +:+ "/" +:+ n) = n.
Proof.
  intros Hn Hp. unfold Path_name, path_parts.
  rewrite !chars_app. change (chars "/") with ["/"%char].
  rewrite app_assoc.
  destruct (split_slash_app (chars dir ++ ["/"%char]) (chars n) Hn)
    as (ps & p & E1 & E2).
  rewrite split_slash_snoc_slash in E1.
  apply app_inj_tail in E1 as [_ <-].
  rewrite E2. simpl. rewrite last_filter_snoc by done. apply of_chars_chars.
Qed.

Lemma docx_name_is_part n :
  endswith (lower n) ".docx" = true -> is_part (chars n) = true.
Proof.
  rewrite endswith_true, chars_lower. intros [k Hk].
  assert (Hlen : 5 <= length (chars n)).
  { rewrite <- (length_fmap lower_ascii), Hk, length_app. simpl. lia. }
  unfold is_part.
  rewrite !bool_decide_eq_false_2; [done| |];
    intros Heq; rewrite Heq in Hlen; simpl in Hlen; lia.
Qed.

Section uploads_more.
Context `{!Runtime}.

(** X1: a member of a zip that lies in a folder is listed under its file
    name alone. *)
Theorem X1_zip_member_base_name (dir n : string) (data : bytes)
    (results : list (string * bytes)) :
  "/"%char ∉ chars n ->
  endswith (lower n) ".docx" = true ->
  zip_members [ZipInfo.mk (dir +:+ "/" +:+ n) false (Ok data)] results
  = Ok (results ++ [(n, data)]).
Proof.
  intros Hn Hd. simpl.
  assert (He : endswith (lower (dir +:+ "/" +:+ n)) ".docx" = true).
  { apply endswith_true. rewrite !lower_app, !chars_app, app_assoc.
    apply suffix_app_r. by apply endswith_true. }
  rewrite He. simpl.
  by rewrite Path_name_in_folder by (done || by apply docx_name_is_part).
Qed.

(** X2: expanding uploads given together is expanding them one group after
    the other and joining the lists; the first group that raises decides. *)
Theorem X2_iter_input_docs_app (items1 items2 : list UploadedFile.t) :
  iter_input_docs (Some (items1 ++ items2))
  = docs1 ← iter_input_docs (Some items1);
    docs2 ← iter_input_docs (Some items2);
    Ok (docs1 ++ docs2).
Proof.
  rewrite !iter_input_docs_expanded. simpl. unfold expanded.
  rewrite mapM_result_app.
  destruct (mapM contribution items1) as [k1|e]; [|done].
  cbn [mbind result_bind fmap result_fmap].
  destruct (mapM contribution items2) as [k2|e]; [|done].
  cbn [mbind result_bind fmap result_fmap]. by rewrite concat_app.
Qed.

Lemma mapM_result_raise {A B} (f : A -> result B) l x e :
  x ∈ l -> f x = Raise e -> is_ok (mapM f l) = false.
Proof.
  intros Hin Hx. induction l as [|y l IH]; [by apply elem_of_nil in Hin|].
  rewrite mapM_result_cons. apply elem_of_cons in Hin as [<-|Hin].
  - by rewrite Hx.
  - destruct (f y); [|done]. cbn [mbind result_bind].
    destruct (mapM f l); [|done]. by apply IH.
Qed.

(** X3: one upload named [.zip] that cannot be opened makes
    [iter_input_docs] raise, whatever else was uploaded. *)
Theorem X3_bad_zip_aborts (items : list UploadedFile.t) (item : UploadedFile.t)
    (e : exn) :
  item ∈ items ->
  endswith (lower (UploadedFile.name item)) ".docx" = false ->
  endswith (lower (UploadedFile.name item)) ".zip" = true ->
  ZipFile (UploadedFile.getvalue item) = Raise e ->
  is_ok (iter_input_docs (Some items)) = false.
Proof.
  intros Hin Hd Hz He. rewrite iter_input_docs_expanded. simpl. unfold expanded.
  assert (Hc : contribution item = Raise e).
  { unfold contribution. by rewrite Hd, Hz, He. }
  pose proof (mapM_result_raise contribution items item e Hin Hc) as Hm.
  by destruct (mapM contribution items).
Qed.

End uploads_more.

(** ** The archive *)

Lemma endswith_app_other s suf suf' :
  endswith suf suf' = false -> endswith suf' suf = false ->
  endswith (s +:+ suf) suf' = false.
Proof.
  intros H1 H2. apply bool_decide_eq_false. intros Hs.
  rewrite chars_app in Hs.
  destruct (suffix_weak_total (chars suf') (chars suf) (chars s ++ chars suf))
    as [H|H]; [done|by apply suffix_app_r| |].
  - apply endswith_true in H. congruence.
  - apply endswith_true in H. congruence.
Qed.

Section archive_more.
Context `{!Runtime} `{!Steps}.

(** X4: the name of an entry tells how processing went: the entry of a
    document that was processed ends in [_refit.docx] and not in [.txt],
    the entry of one that failed ends in [__ERROR.txt] and not in [.docx];
    so no error marker has the name of a refitted document. *)
Theorem X4_entry_name_tells_outcome (tpl_bytes : bytes)
    (cfg : gmap string value) (zf : list ZipEntry) (doc : string * bytes) :
  exists e,
    process_doc tpl_bytes cfg zf doc = zf ++ [e]
    /\ if is_ok (process_one_result doc.1 doc.2 tpl_bytes cfg)
       then endswith (entry_name e) "_refit.docx" = true
            /\ endswith (entry_name e) ".txt" = false
       else endswith (entry_name e) "__ERROR.txt" = true
            /\ endswith (entry_name e) ".docx" = false.
Proof.
  exists (entry_for tpl_bytes cfg doc). split; [apply process_doc_entry|].
  unfold entry_for.
  destruct (process_one_result doc.1 doc.2 tpl_bytes cfg); simpl;
    (split; [apply endswith_app|apply endswith_app_other; vm_compute; reflexivity]).
Qed.
End archive_more.

(** ** Configurations *)

Section config_more.
Context `{!Steps}.

Lemma config_section_dict {A} (d : gmap string value) k (as_type : value -> option A) :
  config_section (VDict d) k as_type = Ok (d !! k ≫= as_type).
Proof.
  unfold config_section, Processor.contains, Processor.getitem.
  by destruct (d !! k).
Qed.

Lemma lift_bind {A B} (a : A) (k : A -> traced B) : (lift (Ok a) ≫= k) = k a.
Proof. apply traced_ret_bind. Qed.

(** On a configuration that is a dictionary, the tests of [process_one]
    written out on untyped values select the same steps. *)
Lemma process_one_value_dict (name : string) (data tpl_bytes : bytes)
    (d : gmap string value) :
  process_one_value name data tpl_bytes (VDict d)
  = process_one name data tpl_bytes d.
Proof.
  unfold process_one_value, process_one.
  pose proof (config_section_dict d "page_setup" as_dict) as E1.
  pose proof (config_section_dict d "header_footer" as_dict) as E2.
  pose proof (config_section_dict d "style_map" as_dict) as E3.
  pose proof (config_section_dict d "find_replace" as_list) as E4.
  revert E1 E2 E3 E4.
  generalize (config_section (VDict d) "page_setup" as_dict).
  generalize (config_section (VDict d) "header_footer" as_dict).
  generalize (config_section (VDict d) "style_map" as_dict).
  generalize (config_section (VDict d) "find_replace" as_list).
  intros r4 r3 r2 r1 -> -> -> ->.
  destruct (d !! "page_setup" ≫= as_dict) as [c1|];
  destruct (d !! "header_footer" ≫= as_dict) as [c2|];
  destruct (d !! "style_map" ≫= as_dict) as [c3|];
  destruct (d !! "find_replace" ≫= as_list) as [c4|];
  repeat first
    [ rewrite lift_bind
    | rewrite !traced_ret_bind
    | rewrite !invoke_bind;
      match goal with
      | |- context [match ?r with Ok _ => _ | Raise _ => _ end] =>
          destruct r; [apply log_cons_eq | reflexivity]
      end ];
  reflexivity.
Qed.

Lemma config_section_no_dict {A} cfg k (as_type : value -> option A) :
  as_dict cfg = None ->
  config_section cfg k as_type = Ok None
  \/ exists e, config_section cfg k as_type = Raise e.
Proof.
  unfold config_section. destruct cfg as [| | | | s | l | d]; try done; intros _;
    simpl; try (right; eauto; fail).
  - destruct (String.index 0 k s); simpl; eauto.
  - destruct (existsb _ l); simpl; eauto.
Qed.

Lemma lift_raise_bind {A B} e (k : A -> traced B) :
  (lift (Raise e) ≫= k) = ([], Raise e).
Proof. reflexivity. Qed.

(** X6: with a configuration that is no dictionary (a YAML text that holds
    a scalar or a list), [process_one] calls the composition and nothing
    else: it returns the composed bytes, or raises (the composition failed,
    or a test of the configuration raised a [TypeError]). *)
Theorem X6_no_dictionary_no_optional_step (name : string)
    (data tpl_bytes : bytes) (cfg : value) :
  as_dict cfg = None ->
  (process_one_value name data tpl_bytes cfg).1
  = [mkCall Compose data (compose_into_template data tpl_bytes)]
  /\ ((process_one_value name data tpl_bytes cfg).2
      = compose_into_template data tpl_bytes
      \/ is_ok (process_one_value name data tpl_bytes cfg).2 = false).
Proof.
  intros Hd. unfold process_one_value.
  pose proof (config_section_no_dict cfg "page_setup" as_dict Hd) as E1.
  pose proof (config_section_no_dict cfg "header_footer" as_dict Hd) as E2.
  pose proof (config_section_no_dict cfg "style_map" as_dict Hd) as E3.
  pose proof (config_section_no_dict cfg "find_replace" as_list Hd) as E4.
  revert E1 E2 E3 E4.
  generalize (config_section cfg "page_setup" as_dict).
  generalize (config_section cfg "header_footer" as_dict).
  generalize (config_section cfg "style_map" as_dict).
  generalize (config_section cfg "find_replace" as_list).
  intros r4 r3 r2 r1 E1 E2 E3 E4.
  rewrite invoke_bind.
  destruct (compose_into_template data tpl_bytes) as [b0|e]; [|simpl; auto].
  destruct E1 as [->|[e1 ->]]; [|simpl; auto].
  rewrite lift_bind, traced_ret_bind.
  destruct E2 as [->|[e2 ->]]; [|simpl; auto].
  rewrite lift_bind, traced_ret_bind.
  destruct E3 as [->|[e3 ->]]; [|simpl; auto].
  rewrite lift_bind, traced_ret_bind.
  destruct E4 as [->|[e4 ->]]; simpl; auto.
Qed.
End config_more.

Section load_config_more.
Context `{!Yaml}.

(** X7: the text of the editor overrides the uploaded file.  When the
    editor is not blank the file plays no part, also when the text is no
    valid YAML: the configuration is then empty and the file is not read
    instead.  Whatever is loaded, the configuration is the empty dictionary
    or a value that counts as true. *)
Theorem X7_editor_overrides_file (cfg_text : string) (cfg_file : option bytes) :
  (strip cfg_text ≠ "" ->
   load_config cfg_text cfg_file = load_config cfg_text None
   /\ (is_ok (safe_load cfg_text) = false ->
       (load_config cfg_text cfg_file).1 = VDict ∅))
  /\ ((load_config cfg_text cfg_file).1 = VDict ∅
      \/ truthy (load_config cfg_text cfg_file).1 = true).
Proof.
  unfold load_config. split.
  - intros Hs. rewrite bool_decide_eq_false_2 by done. simpl.
    split; [done|]. by destruct (safe_load cfg_text).
  - assert (Hor : forall v, or_empty v = VDict ∅ \/ truthy (or_empty v) = true).
    { intros v. unfold or_empty. destruct (truthy v) eqn:E; auto. }
    destruct (negb (bool_decide (strip cfg_text = ""))).
    + destruct (safe_load cfg_text); simpl; auto.
    + destruct cfg_file as [data|]; simpl; auto.
      destruct (safe_load_bytes data); simpl; auto.
Qed.
End load_config_more.

(** ** The pipeline on the embedded steps *)

Section pipeline_more.
Context `{!Library} `{!StyleLibrary} `{!Runtime}.

(** X8: a template that cannot be loaded makes every document of the batch
    fail in the composition: the archive consists of the error markers of
    all documents, each with the exception of the template. *)
Theorem X8_bad_template_all_error_markers (tpl_bytes : bytes)
    (cfg : gmap string value) (docs : list (string * bytes)) (e : exn) :
  load tpl_bytes = Raise e ->
  @process_docs _ processor_steps tpl_bytes cfg docs []
  = (fun doc : string * bytes =>
       mkEntry (Path_stem doc.1 +:+ "__ERROR.txt")
         (encode_utf8 ("Failed to process " +:+ doc.1 +:+ ": " +:+ str_of_exn e)))
    <$> docs.
Proof.
  intros Ht. rewrite process_docs_archive. apply list_fmap_ext.
  intros i [name data] _. unfold entry_for, process_one_result, process_one.
  rewrite invoke_bind. simpl. unfold Processor.compose_into_template.
  by rewrite Ht.
Qed.

Lemma run_steps_result_cons `{!Steps} tpl cfg st steps b :
  (run_steps tpl cfg (st :: steps) b).2
  = b' ← step_function tpl cfg st b; (run_steps tpl cfg steps b').2.
Proof. rewrite run_steps_cons. by destruct (step_function tpl cfg st b). Qed.

(** X9: when the library loads back every document it saves, saving and
    loading between the steps cancel: [process_one] returns what the
    pipeline on documents returns, which loads template and source once,
    composes, runs the configured steps on the document and saves once. *)
Theorem X9_pipeline_on_documents (name : string) (data tpl_bytes : bytes)
    (cfg : gmap string value) :
  (forall doc, load (save doc) = Ok doc) ->
  @process_one_result processor_steps name data tpl_bytes cfg
  = process_document data tpl_bytes cfg.
Proof.
  intros Hround.
  unfold process_one_result, process_document. rewrite process_one_run_steps.
  unfold fixed_order. simpl List.filter. unfold configured, has_dict, has_list.
  rewrite run_steps_result_cons. simpl step_function.
  unfold Processor.compose_into_template.
  destruct (load tpl_bytes) as [base|e]; [|done]. cbn [mbind result_bind].
  destruct (load data) as [src|e]; [|done]. cbn [mbind result_bind].
  destruct (Composer_append base src) as [d0|e]; [|done].
  cbn [mbind result_bind].
  destruct (cfg !! "page_setup" ≫= as_dict) as [c1|] eqn:E1;
  destruct (cfg !! "header_footer" ≫= as_dict) as [c2|] eqn:E2;
  destruct (cfg !! "style_map" ≫= as_dict) as [c3|] eqn:E3;
  destruct (cfg !! "find_replace" ≫= as_list) as [c4|] eqn:E4;
  cbn [optional_step mbind result_bind];
  repeat
    (rewrite run_steps_result_cons;
     cbn [step_function App.apply_page_setup App.set_header_footer
          App.apply_style_mappings App.apply_find_replace processor_steps];
     rewrite ?E1, ?E2, ?E3, ?E4;
     unfold Processor.apply_page_setup, set_header_footer,
       apply_style_mappings, Processor.apply_find_replace,
       Processor._doc_to_bytes;
     rewrite Hround; cbn [mbind result_bind];
     try match goal with
         | |- context [Processor.page_setup_document ?d ?c] =>
             destruct (Processor.page_setup_document d c); [|reflexivity]
         | |- context [header_footer_document ?d ?c] =>
             destruct (header_footer_document d c); [|reflexivity]
         | |- context [Processor.find_replace_document ?d ?c] =>
             destruct (Processor.find_replace_document d c); [|reflexivity]
         end;
     cbn [mbind result_bind]);
  reflexivity.
Qed.
End pipeline_more.

(** ** Page setup *)

Section page_setup_more.
Context `{!Library}.

Lemma apply_margin_written margins s sd :
  Processor.apply_margin margins s sd
  = o ← margin_written margins sd;
    Ok (match o with Some len => Processor.set_margin sd len s | None => s end).
Proof.
  unfold Processor.apply_margin, margin_written, margin_value,
    Processor.setattr_margin.
  destruct (Processor.contains margins _) as [[]|e]; [|done..].
  cbn [mbind result_bind].
  destruct (Processor.getitem margins _) as [v|e]; [|done].
  cbn [mbind result_bind].
  destruct (Mm_float v) as [emu|e]; [|done].
  cbn [mbind result_bind]. by destruct (Processor.margin_length sd emu).
Qed.

Lemma margin_written_value margins sd o :
  margin_written margins sd = Ok o ->
  exists m,
    margin_value margins sd = Ok m
    /\ match m with
       | None => o = None
       | Some emu =>
           Processor.margin_in_range sd emu = true
           /\ exists t, twips emu = Ok t /\ o = Some (t * 635)%Z
       end.
Proof.
  unfold margin_written, Processor.margin_length.
  destruct (margin_value margins sd) as [[emu|]|e]; [| |done].
  - cbn [mbind result_bind].
    destruct (Processor.margin_in_range sd emu) eqn:Hin; [|done].
    destruct (twips emu) as [tw|e] eqn:Htw; [|done].
    cbn [mbind result_bind]. intros [= <-]. exists (Some emu).
    split; [done|]. split; [done|]. by exists tw.
  - intros [= <-]. by exists None.
Qed.

Lemma margin_written_raise margins sd e :
  margin_value margins sd = Raise e -> margin_written margins sd = Raise e.
Proof. unfold margin_written. by intros ->. Qed.

(** The margins after the loop over the four sides. *)
Lemma apply_margins_sides margins s s' :
  Processor.apply_margins margins s
    [Processor.Top; Processor.Bottom; Processor.Left; Processor.Right] = Ok s' ->
  exists t b l r,
    margin_written margins Processor.Top = Ok t
    /\ margin_written margins Processor.Bottom = Ok b
    /\ margin_written margins Processor.Left = Ok l
    /\ margin_written margins Processor.Right = Ok r
    /\ s' = mkSection (orientation s) (page_width s) (page_height s)
              (from_option Some (top_margin s) t)
              (from_option Some (bottom_margin s) b)
              (from_option Some (left_margin s) l)
              (from_option Some (right_margin s) r)
              (header_part s) (footer_part s).
Proof.
  simpl. rewrite !apply_margin_written.
  destruct (margin_written margins Processor.Top) as [t|e]; [|done].
  cbn [mbind result_bind]. rewrite apply_margin_written.
  destruct (margin_written margins Processor.Bottom) as [b|e]; [|done].
  cbn [mbind result_bind]. rewrite apply_margin_written.
  destruct (margin_written margins Processor.Left) as [l|e]; [|done].
  cbn [mbind result_bind]. rewrite apply_margin_written.
  destruct (margin_written margins Processor.Right) as [r|e]; [|done].
  cbn [mbind result_bind]. intros [= <-].
  exists t, b, l, r. repeat split; try done.
  by destruct s, t, b, l, r.
Qed.

Lemma apply_margins_sides_ok margins s t b l r :
  margin_written margins Processor.Top = Ok t ->
  margin_written margins Processor.Bottom = Ok b ->
  margin_written margins Processor.Left = Ok l ->
  margin_written margins Processor.Right = Ok r ->
  Processor.apply_margins margins s
    [Processor.Top; Processor.Bottom; Processor.Left; Processor.Right]
  = Ok (mkSection (orientation s) (page_width s) (page_height s)
          (from_option Some (top_margin s) t)
          (from_option Some (bottom_margin s) b)
          (from_option Some (left_margin s) l)
          (from_option Some (right_margin s) r)
          (header_part s) (footer_part s)).
Proof.
  intros Ht Hb Hl Hr. simpl. rewrite !apply_margin_written, Ht.
  cbn [mbind result_bind]. rewrite apply_margin_written, Hb.
  cbn [mbind result_bind]. rewrite apply_margin_written, Hl.
  cbn [mbind result_bind]. rewrite apply_margin_written, Hr.
  cbn [mbind result_bind]. by destruct s, t, b, l, r.
Qed.

(** X10: page setup sets exactly the margins the configuration mentions.
    A side that [margins_mm] does not mention keeps the margin it had.  A
    side it mentions gets the length [Mm(float(value))] as the margin
    attribute takes it: the length lies in the range of the attribute
    (signed 32 bits for top and bottom, unsigned 64 bits for left and
    right; page setup raises otherwise) and the margin reads as that
    length rounded to twips, 635 units each.  The header and footer of the
    section stay the ones they were. *)
Theorem X10_margins_as_configured (o : string) (margins : value)
    (s s' : Section) (sd : Processor.Side) :
  Processor.page_setup_section o margins s = Ok s' ->
  (exists m,
     margin_value margins sd = Ok m
     /\ match m with
        | None => margin_of sd s' = margin_of sd s
        | Some emu =>
            Processor.margin_in_range sd emu = true
            /\ exists t, twips emu = Ok t
                         /\ margin_of sd s' = Some (t * 635)%Z
        end)
  /\ header_part s' = header_part s /\ footer_part s' = footer_part s.
Proof.
  unfold Processor.page_setup_section. intros Hs.
  apply apply_margins_sides in Hs as (t & b & l & r & Ht & Hb & Hl & Hr & ->).
  split; [|by case_bool_decide].
  destruct sd; simpl;
    [apply margin_written_value in Ht as (m & Hm & Hv)
    |apply margin_written_value in Hb as (m & Hm & Hv)
    |apply margin_written_value in Hl as (m & Hm & Hv)
    |apply margin_written_value in Hr as (m & Hm & Hv)];
    exists m; (split; [done|]);
    (destruct m as [emu|];
     [destruct Hv as (Hin & tw & Htw & ->); split; [done|]; exists tw;
      split; [done|]; by case_bool_decide
     |subst; by case_bool_decide]).
Qed.

(** X11: page setup fails as a whole when a margin it is asked for cannot
    be converted: no section is changed, nothing is saved. *)
Theorem X11_bad_margin_raises (b : bytes) (cfg : gmap string value)
    (doc : Document) (sd : Processor.Side) (e : exn) :
  load b = Ok doc ->
  sections doc ≠ [] ->
  margin_value (dict_get_default cfg "margins_mm" (VDict ∅)) sd = Raise e ->
  is_ok (Processor.apply_page_setup b cfg) = false.
Proof.
  intros Hl Hs Hm. unfold Processor.apply_page_setup. rewrite Hl.
  cbn [mbind result_bind]. unfold Processor.page_setup_document.
  destruct (mapM _ (sections doc)) as [ss|e'] eqn:Em; [|done].
  exfalso. apply mapM_result_Ok in Em.
  destruct Em as [|s s' ss ss' Hx _]; [done|].
  unfold Processor.page_setup_section in Hx.
  apply apply_margins_sides in Hx as (t & b' & l & r & Ht & Hb & Hl' & Hr & _).
  apply margin_written_raise in Hm. destruct sd; congruence.
Qed.

Lemma page_setup_section_again o margins s s' :
  o ≠ "landscape" ->
  Processor.page_setup_section o margins s = Ok s' ->
  Processor.page_setup_section o margins s' = Ok s'.
Proof.
  unfold Processor.page_setup_section. intros Ho.
  rewrite bool_decide_eq_false_2 by done. intros Hs.
  apply apply_margins_sides in Hs as (t & b & l & r & Ht & Hb & Hl & Hr & ->).
  rewrite (apply_margins_sides_ok _ _ t b l r) by done. simpl.
  by destruct t, b, l, r.
Qed.

(** X12: with an orientation other than landscape, page setup is
    idempotent: applied to its own result it returns that result. *)
Theorem X12_page_setup_idempotent (cfg : gmap string value)
    (doc doc' : Document) :
  Processor.configured_orientation cfg ≠ "landscape" ->
  Processor.page_setup_document doc cfg = Ok doc' ->
  Processor.page_setup_document doc' cfg = Ok doc'.
Proof.
  intros Ho. unfold Processor.page_setup_document.
  destruct (mapM _ (sections doc)) as [ss|e] eqn:Em; [|done].
  intros [= <-]. simpl.
  assert (Hss : mapM (Processor.page_setup_section
                        (Processor.configured_orientation cfg)
                        (dict_get_default cfg "margins_mm" (VDict ∅))) ss = Ok ss).
  { apply mapM_result_Ok in Em. apply mapM_result_Ok.
    induction Em as [|s s' l l' Hs _ IH]; constructor; [|done].
    by eapply page_setup_section_again. }
  by rewrite Hss.
Qed.

(** X13: page setup touches the geometry of the sections only: the body,
    the header and footer parts and the number of sections stay as they
    are. *)
Theorem X13_page_setup_frame (cfg : gmap string value) (doc doc' : Document) :
  Processor.page_setup_document doc cfg = Ok doc' ->
  paragraphs doc' = paragraphs doc
  /\ parts doc' = parts doc
  /\ length (sections doc') = length (sections doc)
  /\ Forall2 (fun s s' => header_part s' = header_part s
                          /\ footer_part s' = footer_part s)
       (sections doc) (sections doc').
Proof.
  unfold Processor.page_setup_document.
  destruct (mapM _ (sections doc)) as [ss|e] eqn:Em; [|done].
  intros [= <-]. simpl. apply mapM_result_Ok in Em.
  repeat split; [symmetry; by eapply Forall2_length|].
  eapply Forall2_impl; [exact Em|]. intros s s' Hs. simpl in Hs.
  unfold Processor.page_setup_section in Hs.
  apply apply_margins_sides in Hs as (t & b & l & r & _ & _ & _ & _ & ->).
  by case_bool_decide.
Qed.

End page_setup_more.

(** ** Find/replace *)

Lemma get_or_add_definition_geometry k doc i :
  Forall2 same_geometry (sections doc)
    (sections (get_or_add_definition k doc i).1).
Proof.
  assert (Hrefl : Forall2 same_geometry (sections doc) (sections doc)).
  { apply Forall_Forall2_diag, Forall_forall. by intros s _. }
  induction i as [|i IH]; simpl.
  - destruct (sections doc !! 0) as [s|] eqn:Es; [|done].
    destruct (part_ref k s) eqn:Er; [done|]. simpl.
    destruct (sections doc) as [|s0 ss]; [done|]. simpl in *.
    injection Es as ->. inversion Hrefl; subst.
    constructor; [|done]. by destruct k.
  - destruct (sections doc !! S i) as [s|]; [|done].
    destruct (part_ref k s); [done|]. exact IH.
Qed.

#[local] Instance same_geometry_refl : Reflexive same_geometry.
Proof. by intros s. Qed.

#[local] Instance same_geometry_trans : Transitive same_geometry.
Proof.
  intros s1 s2 s3 (?&?&?&?&?&?&?) (?&?&?&?&?&?&?).
  repeat split; congruence.
Qed.

Section find_replace_more.
Context `{!Library}.

(** X15: rules are applied in order, each to the paragraph the rules before
    it left: one pass with the rules [rules1 ++ rules2] is a pass with
    [rules1] followed by a pass with [rules2]. *)
Theorem X15_rules_in_sequence (p : Paragraph) (rules1 rules2 : list value) :
  Processor.apply_rules p (rules1 ++ rules2)
  = p' ← Processor.apply_rules p rules1; Processor.apply_rules p' rules2.
Proof.
  revert p. induction rules1 as [|rule rules1 IH]; intros p; simpl; [done|].
  destruct (Processor.apply_rule p rule) as [p1|e]; [|done].
  cbn [mbind result_bind]. apply IH.
Qed.

(** X16: a rule without a pattern, or with an empty one, is skipped: it can
    be left out of the list without any difference for the paragraph. *)
Theorem X16_rules_without_pattern_skipped (p : Paragraph) (rules : list value) :
  Processor.apply_rules p (List.filter usable_rule rules)
  = Processor.apply_rules p rules.
Proof.
  revert p. induction rules as [|rule rules IH]; intros p; [done|].
  simpl. destruct (usable_rule rule) eqn:Eu; simpl.
  - destruct (Processor.apply_rule p rule); [|done].
    cbn [mbind result_bind]. apply IH.
  - destruct rule as [| | | | | |r]; try done. simpl in *. rewrite Eu.
    cbn [mbind result_bind]. apply IH.
Qed.

(** X17: a rule that is no dictionary makes find/replace raise as soon as
    the document has a paragraph in its body. *)
Theorem X17_rule_not_a_dictionary_raises (doc : Document) (rule : value)
    (rules : list value) :
  as_dict rule = None ->
  paragraphs doc ≠ [] ->
  is_ok (Processor.find_replace_document doc (rule :: rules)) = false.
Proof.
  intros Hr Hp. unfold Processor.find_replace_document.
  destruct (paragraphs doc) as [|p ps]; [done|].
  rewrite mapM_result_cons. simpl.
  by destruct rule.
Qed.

Lemma replace_in_part_sections rules doc r doc' :
  Processor.replace_in_part rules doc r = Ok doc' ->
  sections doc' = sections doc.
Proof.
  unfold Processor.replace_in_part.
  destruct (parts doc !! r); [|by intros [= <-]].
  destruct (mapM _ _); [|done]. by intros [= <-].
Qed.

Lemma replace_in_section_geometry rules doc i doc' :
  Processor.replace_in_section rules doc i = Ok doc' ->
  Forall2 same_geometry (sections doc) (sections doc').
Proof.
  unfold Processor.replace_in_section.
  pose proof (get_or_add_definition_geometry Header doc i) as H1.
  destruct (get_or_add_definition Header doc i) as [d1 r1]. simpl in H1.
  destruct (Processor.replace_in_part rules d1 r1) as [d2|e] eqn:E2; [|done].
  cbn [mbind result_bind].
  pose proof (get_or_add_definition_geometry Footer d2 i) as H3.
  destruct (get_or_add_definition Footer d2 i) as [d3 r3]. simpl in H3.
  intros E4. apply replace_in_part_sections in E2, E4.
  rewrite E4. rewrite E2 in H3. by etrans.
Qed.

Lemma replace_in_sections_geometry rules idx doc doc' :
  Processor.replace_in_sections rules doc idx = Ok doc' ->
  Forall2 same_geometry (sections doc) (sections doc').
Proof.
  revert doc. induction idx as [|i idx IH]; intros doc; simpl.
  - intros [= <-]. apply Forall_Forall2_diag, Forall_forall. by intros s _.
  - destruct (Processor.replace_in_section rules doc i) as [d1|e] eqn:E; [|done].
    cbn [mbind result_bind]. intros Hr.
    etrans; [by eapply replace_in_section_geometry|by apply IH].
Qed.

(** X18: find/replace leaves the layout alone: every section keeps its
    orientation, page size and margins, the body keeps its number of
    paragraphs and every paragraph its style, and no header or footer part
    goes away. *)
Theorem X18_find_replace_frame (doc doc' : Document) (rules : list value) :
  Processor.find_replace_document doc rules = Ok doc' ->
  Forall2 same_geometry (sections doc) (sections doc')
  /\ Forall2 (fun p p' => style p' = style p) (paragraphs doc) (paragraphs doc')
  /\ length (parts doc) <= length (parts doc').
Proof.
  intros Hd.
  pose proof (find_replace_document_paragraphs _ _ _ Hd) as [Hp He].
  split; [|split].
  - unfold Processor.find_replace_document in Hd.
    destruct (mapM _ (paragraphs doc)); [|done].
    by apply replace_in_sections_geometry in Hd.
  - eapply Forall2_impl; [exact Hp|]. intros p p' Hpp.
    apply apply_rules_edits in Hpp as [->|[t ->]]; done.
  - destruct He as (added & _ & Hf). apply Forall2_length in Hf.
    rewrite length_app in Hf. lia.
Qed.
End find_replace_more.

Lemma get_or_add_definition_stable k doc i s r :
  sections doc !! 0 = Some s -> part_ref k s = Some r ->
  (get_or_add_definition k doc i).1 = doc.
Proof.
  intros Hs Hr. induction i as [|i IH]; simpl.
  - by rewrite Hs, Hr.
  - destruct (sections doc !! S i) as [s'|]; [|done].
    destruct (part_ref k s'); [done|]. exact IH.
Qed.

Lemma mapM_result_id {A} (l : list A) : mapM (fun x => Ok x) l = Ok l.
Proof.
  induction l as [|x l IH]; [done|]. rewrite mapM_result_cons.
  cbn [mbind result_bind]. by rewrite IH.
Qed.

Section no_rules.
Context `{!Library}.

Lemma replace_in_part_no_rules doc r :
  Processor.replace_in_part [] doc r = Ok doc.
Proof.
  unfold Processor.replace_in_part.
  destruct (parts doc !! r) as [ps|] eqn:Er; [|done].
  simpl. rewrite mapM_result_id. cbn [mbind result_bind].
  rewrite list_insert_id by done. by destruct doc.
Qed.

Lemma replace_in_section_no_rules doc i :
  Processor.replace_in_section [] doc i
  = Ok (get_or_add_definition Footer (get_or_add_definition Header doc i).1 i).1.
Proof.
  unfold Processor.replace_in_section.
  destruct (get_or_add_definition Header doc i) as [d1 r1].
  rewrite replace_in_part_no_rules. cbn [mbind result_bind]. simpl.
  destruct (get_or_add_definition Footer d1 i) as [d3 r3].
  by rewrite replace_in_part_no_rules.
Qed.

Lemma replace_in_sections_no_rules_stable doc idx s h f :
  sections doc !! 0 = Some s ->
  header_part s = Some h -> footer_part s = Some f ->
  Processor.replace_in_sections [] doc idx = Ok doc.
Proof.
  intros Hs Hh Hf. induction idx as [|i idx IH]; [done|].
  simpl. rewrite replace_in_section_no_rules.
  rewrite (get_or_add_definition_stable Header doc i s h) by done.
  rewrite (get_or_add_definition_stable Footer doc i s f) by done.
  cbn [mbind result_bind]. exact IH.
Qed.

(** X19: find/replace changes a document even without rules: a first
    section that has neither header nor footer gets an empty one of each,
    and nothing else changes; a document whose first section has both comes
    out as it was. *)
Theorem X19_no_rules_still_adds_header_footer (doc : Document) :
  match sections doc with
  | [] => Processor.find_replace_document doc [] = Ok doc
  | s :: ss =>
      match header_part s, footer_part s with
      | None, None =>
          Processor.find_replace_document doc []
          = Ok (mkDocument
                  (mkSection (orientation s) (page_width s) (page_height s)
                     (top_margin s) (bottom_margin s) (left_margin s)
                     (right_margin s)
                     (Some (length (parts doc)))
                     (Some (S (length (parts doc)))) :: ss)
                  (paragraphs doc)
                  (parts doc ++ [new_part Header; new_part Footer]))
      | Some _, Some _ => Processor.find_replace_document doc [] = Ok doc
      | _, _ => True
      end
  end.
Proof.
  unfold Processor.find_replace_document. simpl. rewrite mapM_result_id.
  cbn [mbind result_bind].
  destruct doc as [[|s ss] ps pts]; simpl; [done|].
  destruct (header_part s) as [h|] eqn:Eh, (footer_part s) as [f|] eqn:Ef;
    try done.
  - rewrite replace_in_section_no_rules. simpl. rewrite Eh. simpl. rewrite Ef.
    cbn [mbind result_bind].
    by apply (replace_in_sections_no_rules_stable _ _ s h f).
  - rewrite replace_in_section_no_rules. simpl. rewrite Eh. simpl. rewrite Ef.
    cbn [mbind result_bind]. simpl.
    rewrite (replace_in_sections_no_rules_stable _ _
               (mkSection (orientation s) (page_width s) (page_height s)
                  (top_margin s) (bottom_margin s) (left_margin s)
                  (right_margin s) (Some (length pts)) (Some (length (pts ++ [new_part Header]))))
               (length pts) (length (pts ++ [new_part Header]))) by done.
    rewrite length_app, <- app_assoc. simpl. by rewrite Nat.add_1_r.
Qed.
End no_rules.

(** ** Style mappings *)

Section style_mappings_more.
Context `{!Library} `{!StyleLibrary}.

Lemma map_style_cases doc mapping p :
  content (map_style doc mapping p) = content p
  /\ match mapping !! style p with
     | None => map_style doc mapping p = p
     | Some target =>
         match styles_getitem doc target with
         | Ok name => style (map_style doc mapping p) = name
         | Raise _ => map_style doc mapping p = p
         end
     end.
Proof.
  unfold map_style, Processor.getitem.
  destruct (mapping !! style p) as [target|]; simpl; [|done].
  by destruct (styles_getitem doc target).
Qed.

(** X20: style mapping is best effort and touches styles only.  Once the
    package is loaded it does not raise; sections, header and footer parts
    and the text and runs of every paragraph stay as they are; a paragraph
    whose style is no key of the mapping, or whose target style the
    document cannot provide, stays as it is; any other paragraph gets the
    target style of its own style, looked up once (the target is not mapped
    again). *)
Theorem X20_style_mapping_best_effort (b : bytes) (mapping : gmap string value)
    (doc : Document) :
  load b = Ok doc ->
  exists doc',
    apply_style_mappings b mapping = Ok (save doc')
    /\ sections doc' = sections doc
    /\ parts doc' = parts doc
    /\ Forall2
         (fun p p' =>
            content p' = content p
            /\ match mapping !! style p with
               | None => p' = p
               | Some target =>
                   match styles_getitem doc target with
                   | Ok name => style p' = name
                   | Raise _ => p' = p
                   end
               end)
         (paragraphs doc) (paragraphs doc').
Proof.
  intros Hl. exists (style_mappings_document doc mapping).
  unfold apply_style_mappings. rewrite Hl. split; [done|].
  split; [done|]. split; [done|]. simpl.
  apply Forall2_fmap_r, Forall_Forall2_diag, Forall_forall.
  intros p _. apply map_style_cases.
Qed.
End style_mappings_more.

(** ** Header and footer *)

Lemma string_app_nil_r (s : string) : s +:+ "" = s.
Proof.
  induction s as [|c s IH]; [done|].
  change (String c (s +:+ "") = String c s). by rewrite IH.
Qed.

Lemma string_app_assoc (s1 s2 s3 : string) :
  (s1 +:+ s2) +:+ s3 = s1 +:+ (s2 +:+ s3).
Proof.
  induction s1 as [|c s1 IH]; [done|].
  change (String c ((s1 +:+ s2) +:+ s3) = String c (s1 +:+ (s2 +:+ s3))).
  by rewrite IH.
Qed.

Lemma join_app l1 l2 : join (l1 ++ l2) = join l1 +:+ join l2.
Proof.
  induction l1 as [|s l1 IH]; simpl; [done|].
  by rewrite IH, string_app_assoc.
Qed.

Lemma string_app_eq_nil (s1 s2 : string) : s1 +:+ s2 = "" -> s1 = "".
Proof. by destruct s1. Qed.

Section header_footer_more.
Context `{!Library} `{!StyleLibrary}.

Lemma text_set_text p t : text (set_text p t) = t.
Proof. unfold text. simpl. apply string_app_nil_r. Qed.

Lemma text_with_field p :
  text (mkParagraph (style p) (content p ++ [IRun page_field_run]))
  = text p +:+ "1".
Proof.
  unfold text. simpl. rewrite fmap_app, join_app. simpl.
  by rewrite string_app_nil_r.
Qed.

Lemma string_snoc_nonempty (s1 s2 : string) : s2 ≠ "" -> s1 +:+ s2 ≠ "".
Proof. intros Hs2 Hs. destruct s1; [by apply Hs2|discriminate]. Qed.

(** The footer branch on the first paragraph of the footer, for a footer
    text that is a string. *)
Lemma footer_paragraph_string t include p :
  footer_paragraph (VStr t) include p
  = Ok (footer_step t include p).
Proof.
  unfold footer_step, footer_paragraph, footer_parts, footer_prefix,
    page_placeholder.
  simpl truthy. destruct include.
  - rewrite text_with_field.
    rewrite (bool_decide_eq_false_2 (text p +:+ "1" = ""))
      by (by apply string_snoc_nonempty).
    rewrite (bool_decide_eq_false_2 (_ +:+ "Page " = ""))
      by (by apply string_snoc_nonempty).
    destruct (decide (t = "")) as [->|Ht].
    + simpl. by rewrite !string_app_nil_r.
    + rewrite (bool_decide_eq_false_2 (t = "")) by done. simpl.
      unfold set_text. simpl.
      by rewrite !string_app_nil_r, !string_app_assoc.
  - destruct (decide (t = "")) as [->|Ht]; [done|].
    rewrite !(bool_decide_eq_false_2 (t = "")) by done. simpl.
    rewrite !string_app_nil_r.
    case_bool_decide as Hp; [|done]. by rewrite Hp, string_app_nil_r.
Qed.
End header_footer_more.

Lemma get_or_add_definition_shared k doc s ss r i :
  sections doc = s :: ss ->
  part_ref k s = Some r ->
  Forall (fun s' => part_ref k s' = None) ss ->
  i < length (sections doc) ->
  get_or_add_definition k doc i = (doc, r).
Proof.
  intros Hs Hr Hss. induction i as [|i IH]; intros Hi; simpl.
  - by rewrite Hs; simpl; rewrite Hr.
  - rewrite Hs in *. simpl in *.
    destruct (ss !! i) as [s'|] eqn:Ei.
    + rewrite (proj1 (Forall_lookup _ _) Hss i s' Ei). apply IH. lia.
    + apply lookup_ge_None in Ei. lia.
Qed.

Section header_footer_document_more.
Context `{!Library} `{!StyleLibrary}.

(** X21: a header/footer section without header text, footer text and page
    numbers leaves the document as it is; no header or footer is created. *)
Theorem X21_nothing_asked_nothing_done (doc : Document)
    (cfg : gmap string value) :
  dict_get cfg "header_text" = VNone ->
  dict_get cfg "footer_text" = VNone ->
  truthy (dict_get_default cfg "include_page_numbers" (VBool false)) = false ->
  header_footer_document doc cfg = Ok doc.
Proof.
  intros Hh Hf Hi. unfold header_footer_document. rewrite Hh, Hf, Hi.
  induction (seq 0 (length (sections doc))) as [|i idx IH]; [done|].
  simpl. exact IH.
Qed.

(** What one visit of the footer does to its first paragraph. *)
Lemma footer_visit t include doc i f p ps s ss :
  sections doc = s :: ss ->
  footer_part s = Some f ->
  Forall (fun s' => footer_part s' = None) ss ->
  i < length (sections doc) ->
  parts doc !! f = Some (p :: ps) ->
  header_footer_section VNone (VStr t) include doc i
  = Ok (mkDocument (sections doc) (paragraphs doc)
          (<[f := footer_step t include p :: ps]> (parts doc))).
Proof.
  intros Hs Hf Hss Hi Hp. unfold header_footer_section. simpl.
  unfold on_first_paragraph.
  rewrite (get_or_add_definition_shared Footer doc s ss f i) by done.
  rewrite Hp. simpl. by rewrite footer_paragraph_string.
Qed.

Lemma footer_visits t include f ps s ss idx doc p :
  sections doc = s :: ss ->
  footer_part s = Some f ->
  Forall (fun s' => footer_part s' = None) ss ->
  Forall (fun i => i < length (sections doc)) idx ->
  parts doc !! f = Some (p :: ps) ->
  header_footer_sections VNone (VStr t) include doc idx
  = Ok (mkDocument (sections doc) (paragraphs doc)
          (<[f := Nat.iter (length idx) (footer_step t include) p :: ps]>
             (parts doc))).
Proof.
  intros Hs Hf Hss Hidx. revert doc p Hs Hidx.
  induction idx as [|i idx IH]; intros doc p Hs Hidx Hp.
  - simpl. rewrite list_insert_id by done. by destruct doc.
  - apply Forall_cons in Hidx as [Hi Hidx].
    simpl header_footer_sections.
    rewrite (footer_visit t include doc i f p ps s ss) by done.
    cbn [mbind result_bind].
    rewrite (IH _ (footer_step t include p)); simpl; try done.
    + by rewrite list_insert_insert_eq, <- Nat.iter_succ_r.
    + apply list_lookup_insert_eq. by eapply lookup_lt_Some.
Qed.

(** X22: the footer text is put in front of what the footer holds, once
    for every section that uses the footer.  In a document whose sections
    all use the footer of the first one, a footer-only configuration turns
    the first paragraph of that footer into a single run that holds, for
    every section once more, the footer text (with the label of the page
    number, if asked for), then the text the paragraph had, then the
    placeholder of the page field; the page field itself does not stay. *)
Theorem X22_footer_prefixed_once_per_section (doc : Document)
    (cfg : gmap string value) (t : string) (s : Section) (ss : list Section)
    (f : nat) (p : Paragraph) (ps : list Paragraph) :
  dict_get cfg "header_text" = VNone ->
  dict_get cfg "footer_text" = VStr t ->
  sections doc = s :: ss ->
  footer_part s = Some f ->
  Forall (fun s' => footer_part s' = None) ss ->
  parts doc !! f = Some (p :: ps) ->
  header_footer_document doc cfg
  = Ok (mkDocument (sections doc) (paragraphs doc)
          (<[f := Nat.iter (length (sections doc))
                    (footer_step t
                       (truthy (dict_get_default cfg "include_page_numbers"
                                  (VBool false)))) p :: ps]> (parts doc))).
Proof.
  intros Hh Ht Hs Hf Hss Hp. unfold header_footer_document. rewrite Hh, Ht.
  rewrite (footer_visits t _ f ps s ss _ doc p); try done.
  - by rewrite length_seq.
  - apply Forall_forall. intros i Hi. apply elem_of_seq in Hi. lia.
Qed.

(** X23: in a document of one section with a header and a footer of its
    own, the header text replaces what the first paragraph of the header
    held, while the footer text is put in front of what the first paragraph
    of the footer held; both paragraphs end up as a single run without
    formatting, and nothing else in the document changes. *)
Theorem X23_header_replaced_footer_prefixed (doc : Document)
    (cfg : gmap string value) (th tf : string) (s : Section) (h f : nat)
    (ph pf : Paragraph) (hs fs : list Paragraph) :
  dict_get cfg "header_text" = VStr th ->
  dict_get cfg "footer_text" = VStr tf ->
  sections doc = [s] ->
  header_part s = Some h -> footer_part s = Some f -> h ≠ f ->
  parts doc !! h = Some (ph :: hs) ->
  parts doc !! f = Some (pf :: fs) ->
  header_footer_document doc cfg
  = Ok (mkDocument (sections doc) (paragraphs doc)
          (<[f := footer_step tf
                    (truthy (dict_get_default cfg "include_page_numbers"
                               (VBool false))) pf :: fs]>
             (<[h := set_text ph th :: hs]> (parts doc)))).
Proof.
  intros Hth Htf Hs Hh Hf Hne Hph Hpf.
  unfold header_footer_document. rewrite Hth, Htf, Hs. simpl.
  unfold header_footer_section. simpl.
  unfold on_first_paragraph at 2. simpl. rewrite Hs. simpl. rewrite Hh, Hph.
  simpl. cbn [mbind result_bind].
  unfold on_first_paragraph. simpl. rewrite Hs. simpl. rewrite Hf.
  cbn [parts sections paragraphs].
  rewrite list_lookup_insert_ne, Hpf by done. simpl.
  rewrite footer_paragraph_string. cbn [mbind result_bind]. done.
Qed.

Lemma on_first_paragraph_frame k g doc i doc' :
  on_first_paragraph k g doc i = Ok doc' ->
  paragraphs doc' = paragraphs doc
  /\ Forall2 same_geometry (sections doc) (sections doc')
  /\ length (parts doc) <= length (parts doc').
Proof.
  unfold on_first_paragraph.
  pose proof (get_or_add_definition_frame k doc i) as (Hp & _ & (a & _ & Ha)).
  pose proof (get_or_add_definition_geometry k doc i) as Hg.
  destruct (get_or_add_definition k doc i) as [d1 r]. simpl in *.
  apply Forall2_length in Ha. rewrite length_app in Ha.
  assert (Hd1 : paragraphs d1 = paragraphs doc
                /\ Forall2 same_geometry (sections doc) (sections d1)
                /\ length (parts doc) <= length (parts d1))
    by (repeat split; [done..|lia]).
  destruct (parts d1 !! r) as [ps|]; [|by intros [= <-]].
  destruct (ensure_paragraph d1 ps) as [|p ps']; [by intros [= <-]|].
  destruct (g p) as [p'|e]; [|done]. intros [= <-]. simpl.
  rewrite length_insert. by destruct Hd1 as (? & ? & ?).
Qed.

Lemma header_footer_section_frame th tf include doc i doc' :
  header_footer_section th tf include doc i = Ok doc' ->
  paragraphs doc' = paragraphs doc
  /\ Forall2 same_geometry (sections doc) (sections doc')
  /\ length (parts doc) <= length (parts doc').
Proof.
  unfold header_footer_section.
  assert (Hrefl : paragraphs doc = paragraphs doc
                  /\ Forall2 same_geometry (sections doc) (sections doc)
                  /\ length (parts doc) <= length (parts doc)).
  { repeat split; [|lia]. apply Forall_Forall2_diag, Forall_forall. by intros. }
  destruct (negb (is_None th)).
  - destruct (on_first_paragraph Header _ doc i) as [d1|e] eqn:E1; [|done].
    cbn [mbind result_bind]. apply on_first_paragraph_frame in E1 as (P1 & G1 & L1).
    destruct (negb (is_None tf) || include).
    + intros E2. apply on_first_paragraph_frame in E2 as (P2 & G2 & L2).
      repeat split; [congruence|by etrans|lia].
    + by intros [= <-].
  - cbn [mbind result_bind]. destruct (negb (is_None tf) || include).
    + apply on_first_paragraph_frame.
    + by intros [= <-].
Qed.

(** X24: setting header and footer leaves the body and the layout alone:
    the paragraphs of the body and the orientation, page size and margins of
    every section stay as they are, and no header or footer part goes
    away. *)
Theorem X24_header_footer_frame (doc doc' : Document) (cfg : gmap string value) :
  header_footer_document doc cfg = Ok doc' ->
  paragraphs doc' = paragraphs doc
  /\ Forall2 same_geometry (sections doc) (sections doc')
  /\ length (parts doc) <= length (parts doc').
Proof.
  unfold header_footer_document.
  generalize (seq 0 (length (sections doc))). intros idx. revert doc.
  induction idx as [|i idx IH]; intros doc; simpl.
  - intros [= <-]. repeat split; [|lia].
    apply Forall_Forall2_diag, Forall_forall. by intros.
  - destruct (header_footer_section _ _ _ doc i) as [d1|e] eqn:E; [|done].
    cbn [mbind result_bind]. intros Hr.
    apply header_footer_section_frame in E as (P1 & G1 & L1).
    apply IH in Hr as (P2 & G2 & L2).
    repeat split; [congruence|by etrans|lia].
Qed.
End header_footer_document_more.

(** ** The properties on the sample instances *)

Lemma number_digits n : SampleRest.number (SampleRest.digits n) = Some n.
Proof. induction n as [n IH|n IH|]; simpl; [by rewrite IH..|done]. Qed.

Lemma codec_round_trip doc :
  @load SampleRest.codec (@save SampleRest.codec doc) = Ok doc.
Proof.
  simpl. unfold SampleRest.codec_load. rewrite number_digits. simpl.
  by rewrite decode_encode.
Qed.

Lemma X1_zip_member_base_name_witness :
  zip_members [ZipInfo.mk ("legacy/2019" +:+ "/" +:+ "Report.DOCX") false (Ok [])] []
  = Ok ([] ++ [("Report.DOCX", [])]).
Proof.
  apply X1_zip_member_base_name.
  - apply (bool_decide_unpack _). vm_compute. exact I.
  - vm_compute. reflexivity.
Defined.

Lemma X3_bad_zip_aborts_witness :
  is_ok (iter_input_docs (Some [Sample.letter; UploadedFile.mk "scan.zip" []]))
  = false.
Proof.
  apply (X3_bad_zip_aborts _ (UploadedFile.mk "scan.zip" [])
           (Exception "File is not a zip file")).
  - apply list_elem_of_further, list_elem_of_here.
  - vm_compute. reflexivity.
  - vm_compute. reflexivity.
  - vm_compute. reflexivity.
Defined.

Lemma X6_no_dictionary_no_optional_step_witness :
  (process_one_value "Letter.docx" (UploadedFile.getvalue Sample.letter)
     Sample.template (VStr "hello")).1
  = [mkCall Compose (UploadedFile.getvalue Sample.letter)
       (compose_into_template (UploadedFile.getvalue Sample.letter) Sample.template)].
Proof.
  apply (X6_no_dictionary_no_optional_step "Letter.docx"
           (UploadedFile.getvalue Sample.letter) Sample.template (VStr "hello")).
  reflexivity.
Defined.

Lemma X7_editor_overrides_file_witness :
  load_config " [" (Some (encode_utf8 "find_replace: []")) = load_config " [" None
  /\ (load_config "[" (Some (encode_utf8 "find_replace: []"))).1 = VDict ∅.
Proof.
  split.
  - apply (proj1 (X7_editor_overrides_file " [" _)). vm_compute. discriminate.
  - apply (proj1 (X7_editor_overrides_file "[" _)).
    + vm_compute. discriminate.
    + vm_compute. reflexivity.
Defined.

Lemma X8_bad_template_all_error_markers_witness :
  @process_docs _ processor_steps [] Sample.full_config Sample.documents []
  = (fun doc : string * bytes =>
       mkEntry (Path_stem doc.1 +:+ "__ERROR.txt")
         (encode_utf8 ("Failed to process " +:+ doc.1 +:+ ": "
                       +:+ str_of_exn (Exception "Package not found"))))
    <$> Sample.documents.
Proof. apply X8_bad_template_all_error_markers. reflexivity. Defined.

Lemma X9_pipeline_on_documents_witness :
  let doc := mkDocument [SampleRest.plain_section PORTRAIT 210 297]
               [SampleRest.two_runs] [] in
  @process_one_result (@processor_steps SampleRest.codec _) "a.docx"
    (@save SampleRest.codec doc) (@save SampleRest.codec doc) Sample.full_config
  = @process_document SampleRest.codec _
      (@save SampleRest.codec doc) (@save SampleRest.codec doc) Sample.full_config.
Proof.
  intros doc. apply (@X9_pipeline_on_documents SampleRest.codec).
  apply codec_round_trip.
Defined.

Lemma X10_margins_as_configured_witness :
  let margins := VDict {[ "top" := VFloat Sample.inch; "right" := VInt 20;
                          "gutter" := VInt 5 ]} in
  let s := SampleRest.plain_section LANDSCAPE 297 210 in
  let s' := mkSection PORTRAIT (Some 297%Z) (Some 210%Z) (Some 914400%Z)
              None None (Some 720090%Z) None None in
  (exists m,
     margin_value margins Processor.Right = Ok m
     /\ match m with
        | None => margin_of Processor.Right s' = margin_of Processor.Right s
        | Some emu =>
            Processor.margin_in_range Processor.Right emu = true
            /\ exists t, twips emu = Ok t
                         /\ margin_of Processor.Right s' = Some (t * 635)%Z
        end)
  /\ header_part s' = header_part s /\ footer_part s' = footer_part s.
Proof.
  intros margins s s'.
  apply (X10_margins_as_configured "portrait" margins s s' Processor.Right).
  vm_compute. reflexivity.
Defined.

Lemma X11_bad_margin_raises_witness :
  is_ok (Processor.apply_page_setup Sample.template
           {[ "margins_mm" := VDict {[ "left" := VStr "wide" ]} ]})
  = false.
Proof.
  apply (X11_bad_margin_raises Sample.template _
           (mkDocument [SampleRest.plain_section PORTRAIT 21 29]
              [mkParagraph "Normal" [IRun (mkRun "" None)]] [])
           Processor.Left
           (Exception "could not convert string to float")).
  - vm_compute. reflexivity.
  - discriminate.
  - vm_compute. reflexivity.
Defined.

Lemma X12_page_setup_idempotent_witness :
  let cfg : gmap string value :=
    {[ "orientation" := VStr "Portrait";
       "margins_mm" := VDict {[ "top" := VInt 20; "right" := VInt 15 ]} ]} in
  let after :=
    mkDocument
      [mkSection PORTRAIT (Some 297%Z) (Some 210%Z) (Some 720090%Z) None None
         (Some 539750%Z) None None] [SampleRest.two_runs] [] in
  Processor.page_setup_document after cfg = Ok after.
Proof.
  intros cfg after.
  apply (X12_page_setup_idempotent cfg
           (mkDocument [SampleRest.plain_section LANDSCAPE 297 210]
              [SampleRest.two_runs] [])).
  - vm_compute. discriminate.
  - vm_compute. reflexivity.
Defined.

Lemma X13_page_setup_frame_witness :
  let cfg : gmap string value := {[ "orientation" := VStr "landscape" ]} in
  let doc :=
    mkDocument [mkSection PORTRAIT (Some 210%Z) (Some 297%Z) None None None None
                  (Some 0) None]
      [SampleRest.two_runs] [[mkParagraph "Header" []]] in
  let doc' :=
    mkDocument [mkSection LANDSCAPE (Some 297%Z) (Some 210%Z) None None None None
                  (Some 0) None]
      [SampleRest.two_runs] [[mkParagraph "Header" []]] in
  paragraphs doc' = paragraphs doc
  /\ parts doc' = parts doc
  /\ length (sections doc') = length (sections doc)
  /\ Forall2 (fun s s' => header_part s' = header_part s
                          /\ footer_part s' = footer_part s)
       (sections doc) (sections doc').
Proof.
  intros cfg doc doc'. apply (X13_page_setup_frame cfg doc doc').
  vm_compute. reflexivity.
Defined.


Lemma X17_rule_not_a_dictionary_raises_witness :
  is_ok (Processor.find_replace_document
           (mkDocument [] [SampleRest.two_runs] [])
           [VStr "ACME"; VDict {[ "pattern" := VStr "ACME" ]}])
  = false.
Proof. apply X17_rule_not_a_dictionary_raises; [reflexivity|discriminate]. Defined.

Lemma X18_find_replace_frame_witness :
  let doc := mkDocument [SampleRest.plain_section PORTRAIT 210 297]
               [SampleRest.two_runs] [] in
  let doc' :=
    mkDocument
      [mkSection PORTRAIT (Some 210%Z) (Some 297%Z) None None None None
         (Some 0) (Some 1)]
      [mkParagraph "Heading 1" [IRun (mkRun "Your Company" None)]]
      [[mkParagraph "Header" []]; [mkParagraph "Footer" []]] in
  Forall2 same_geometry (sections doc) (sections doc')
  /\ Forall2 (fun p p' => style p' = style p) (paragraphs doc) (paragraphs doc')
  /\ length (parts doc) <= length (parts doc').
Proof.
  intros doc doc'.
  apply (X18_find_replace_frame doc doc'
           [VDict {[ "pattern" := VStr "ACME Corp";
                     "replace" := VStr "Your Company" ]}]).
  vm_compute. reflexivity.
Defined.

Lemma X20_style_mapping_best_effort_witness :
  exists doc',
    apply_style_mappings (UploadedFile.getvalue Sample.letter)
      {[ "Normal" := VStr "Title"; "Title" := VStr "Heading 1" ]}
    = Ok (save doc')
    /\ paragraphs doc'
       = [mkParagraph "Title" [IRun (mkRun "Dear" None)]].
Proof.
  destruct (X20_style_mapping_best_effort (UploadedFile.getvalue Sample.letter)
              {[ "Normal" := VStr "Title"; "Title" := VStr "Heading 1" ]}
              (mkDocument [SampleRest.plain_section PORTRAIT 10 20]
                 [mkParagraph "Normal" [IRun (mkRun "Dear" None)]] []))
    as (doc' & Hs & _ & _ & Hp); [vm_compute; reflexivity|].
  exists doc'. split; [exact Hs|].
  inversion Hp as [|p p' ps ps' [Hc Hm] Hrest]; subst.
  inversion Hrest; subst. vm_compute in Hm. simpl in Hc.
  destruct p' as [st c]. simpl in *. by subst.
Defined.

Lemma X21_nothing_asked_nothing_done_witness :
  let doc := mkDocument [SampleRest.plain_section PORTRAIT 210 297]
               [SampleRest.two_runs] [] in
  header_footer_document doc {[ "header_text" := VNone ]} = Ok doc.
Proof.
  intros doc. apply X21_nothing_asked_nothing_done; vm_compute; reflexivity.
Defined.

Lemma X22_footer_prefixed_once_per_section_witness :
  let s1 := mkSection PORTRAIT None None None None None None None (Some 0) in
  let s2 := mkSection PORTRAIT None None None None None None None None in
  let footer := mkParagraph "Footer" [IRun (mkRun "Confidential" (Some "italic"))] in
  header_footer_document (mkDocument [s1; s2] [] [[footer]]) SampleRest.footer_only
  = Ok (mkDocument [s1; s2] []
          [[mkParagraph "Footer"
              [IRun (mkRun "Co — Page Co — Page Confidential11" None)]]]).
Proof.
  intros s1 s2 footer.
  rewrite (X22_footer_prefixed_once_per_section _ SampleRest.footer_only "Co"
             s1 [s2] 0 footer []); try (vm_compute; reflexivity).
  repeat constructor.
Defined.

Lemma X23_header_replaced_footer_prefixed_witness :
  let s := mkSection PORTRAIT None None None None None None (Some 0) (Some 1) in
  let header := mkParagraph "Header" [IRun (mkRun "New Layout" None)] in
  let footer := mkParagraph "Footer" [IRun (mkRun "Confidential" None)] in
  header_footer_document (mkDocument [s] [] [[header]; [footer]])
    {[ "header_text" := VStr "Draft"; "footer_text" := VStr "Co" ]}
  = Ok (mkDocument [s] []
          [[mkParagraph "Header" [IRun (mkRun "Draft" None)]];
           [mkParagraph "Footer" [IRun (mkRun "CoConfidential" None)]]]).
Proof.
  intros s header footer.
  rewrite (X23_header_replaced_footer_prefixed _ _ "Draft" "Co" s 0 1
             header footer [] []); try (vm_compute; reflexivity).
  discriminate.
Defined.

Lemma X24_header_footer_frame_witness :
  let s := mkSection PORTRAIT None None None None None None None None in
  let s' := mkSection PORTRAIT None None None None None None None (Some 0) in
  let doc := mkDocument [s] [SampleRest.two_runs] [] in
  let doc' :=
    mkDocument [s'] [SampleRest.two_runs]
      [[mkParagraph "Footer" [IRun (mkRun "Co — Page 1" None)]]] in
  paragraphs doc' = paragraphs doc
  /\ Forall2 same_geometry (sections doc) (sections doc')
  /\ length (parts doc) <= length (parts doc').
Proof.
  intros s s' doc doc'.
  apply (X24_header_footer_frame doc doc' SampleRest.footer_only).
  vm_compute. reflexivity.
Defined.
